(** * Session identity, reconciliation and consolidation of conversation backups

    A shallow embedding of [claude-to-markdown-v3.py] (module [Convert]) and
    [migrate-duplicates.py] (module [Migrate]), with the properties of the
    design document stated and settled against the code.

    Modelling conventions:
    - a Python [str] is a Rocq [string]; one [ascii] stands for one code point
      below 256, so slicing and [len] count characters as Python does;
    - a value decoded from JSON is a [value]; a float is carried by its
      spelling, since the programs only print floats and test them for zero;
    - a raised exception is [Raise e] in the [result] monad; a [try] block
      with a bare [except] is [catch_all], or a match on the result;
    - the file system is a finite map from paths (lists of components) to
      file contents; directories are implicit;
    - what the Python runtime supplies and the programs do not define (the JSON
      decoder, the MD5 digest, ISO-8601 parsing, [Path.name]) is the interface
      [Runtime]; theorems hold for every runtime, and the instance
      [reference_runtime] is used to run the code on concrete logs. *)

From Stdlib Require Import ZArith String Ascii List Bool Lia DecimalString.
From stdpp Require Import base option list gmap strings.

Set Warnings "-register-all".
Set Default Proof Using "Type".


(** ** Exceptions *)

Inductive exn : Type :=
| JSONDecodeError
| AttributeError
| TypeError
| KeyError
| IndexError
| FileNotFoundError
| SameFileError.

Inductive result (A : Type) : Type :=
| Ok (a : A)
| Raise (e : exn).
Arguments Ok {A} a.
Arguments Raise {A} e.

#[global] Instance result_ret : MRet result := fun _ a => Ok a.
#[global] Instance result_bind : MBind result := fun _ _ f m =>
  match m with
  | Ok a => f a
  | Raise e => Raise e
  end.

(** [try: m except: h] with a bare [except] clause. *)
Definition catch_all {A} (m : result A) (h : A) : A :=
  match m with
  | Ok a => a
  | Raise _ => h
  end.

Definition is_ok {A} (m : result A) : bool :=
  match m with
  | Ok _ => true
  | Raise _ => false
  end.

(** ** Python strings *)

Module Py.

Definition chr (n : nat) : ascii := ascii_of_nat n.
Definition ord (c : ascii) : nat := nat_of_ascii c.

Definition LF : ascii := chr 10.
Definition CR : ascii := chr 13.
Definition nl : string := String LF "".

(** [str.isspace] on one character (code points below 256). *)
Definition isspace (c : ascii) : bool :=
  let n := ord c in
  ((9 <=? n) && (n <=? 13) || (28 <=? n) && (n <=? 32)
   || (n =? 133) || (n =? 160))%nat.

Fixpoint len (s : string) : nat :=
  match s with
  | "" => 0
  | String _ s' => S (len s')
  end.

(** [s[:n]] *)
Fixpoint take (n : nat) (s : string) : string :=
  match n, s with
  | O, _ => ""
  | S n', "" => ""
  | S n', String c s' => String c (take n' s')
  end.

(** [s[n:]] *)
Fixpoint drop (n : nat) (s : string) : string :=
  match n, s with
  | O, _ => s
  | S n', "" => ""
  | S n', String _ s' => drop n' s'
  end.

Fixpoint startswith (p s : string) : bool :=
  match p, s with
  | "", _ => true
  | String a p', String b s' => Ascii.eqb a b && startswith p' s'
  | String _ _, "" => false
  end.

(** [sub in s] *)
Fixpoint contains (sub s : string) : bool :=
  startswith sub s ||
  match s with
  | "" => false
  | String _ s' => contains sub s'
  end.

Fixpoint lstrip (s : string) : string :=
  match s with
  | "" => ""
  | String c s' => if isspace c then lstrip s' else s
  end.

Fixpoint rstrip (s : string) : string :=
  match s with
  | "" => ""
  | String c s' =>
      match rstrip s' with
      | "" => if isspace c then "" else String c ""
      | r => String c r
      end
  end.

Definition strip (s : string) : string := rstrip (lstrip s).

(** [sep.join(l)] *)
Fixpoint join (sep : string) (l : list string) : string :=
  match l with
  | [] => ""
  | [x] => x
  | x :: rest => x +:+ sep +:+ join sep rest
  end.

(** [s.split(c, 1)]: the text before the first [c] and the text after it,
    or [None] when [c] does not occur. *)
Fixpoint split_once (c : ascii) (s : string) : option (string * string) :=
  match s with
  | "" => None
  | String a s' =>
      if Ascii.eqb a c then Some ("", s')
      else match split_once c s' with
           | Some (l, r) => Some (String a l, r)
           | None => None
           end
  end.

(** [s.replace(old, new)] for a one-character [old]. *)
Fixpoint replace_char (old : ascii) (new : string) (s : string) : string :=
  match s with
  | "" => ""
  | String a s' =>
      (if Ascii.eqb a old then new else String a "") +:+ replace_char old new s'
  end.

(** [s.count(c)] for a one-character [c]. *)
Fixpoint count_char (c : ascii) (s : string) : nat :=
  match s with
  | "" => 0
  | String a s' => (if Ascii.eqb a c then 1 else 0) + count_char c s'
  end.

Definition lower_char (c : ascii) : ascii :=
  let n := ord c in
  if ((65 <=? n) && (n <=? 90)
      || (192 <=? n) && (n <=? 222) && negb (n =? 215))%nat
  then chr (n + 32) else c.

Fixpoint lower (s : string) : string :=
  match s with
  | "" => ""
  | String c s' => String (lower_char c) (lower s')
  end.

(** Lines of a text file opened in text mode (universal newlines): a line
    ends at a line feed or a carriage return. Terminators are dropped: every
    reader below strips its lines. *)
Definition is_newline (c : ascii) : bool := Ascii.eqb c LF || Ascii.eqb c CR.

Fixpoint file_lines (s : string) : list string :=
  match s with
  | "" => [""]
  | String c s' =>
      if is_newline c then "" :: file_lines s'
      else match file_lines s' with
           | l :: ls => String c l :: ls
           | [] => [String c ""]
           end
  end.

Definition of_Z (z : Z) : string := NilZero.string_of_int (Z.to_int z).

End Py.

(** ** Values decoded from JSON *)

Inductive value : Type :=
| VNone
| VBool (b : bool)
| VInt (z : Z)
| VFloat (spelling : string)
| VStr (s : string)
| VList (items : list value)
| VDict (fields : list (string * value)).

Module Val.

(** A dict is kept as its items in insertion order, one entry per key. *)
Fixpoint dict_get (fields : list (string * value)) (k : string) : option value :=
  match fields with
  | [] => None
  | (k', v) :: rest => if String.eqb k' k then Some v else dict_get rest k
  end.

(** [d.get(k, default)]; only a dict has the method. *)
Definition get (d : value) (k : string) (dflt : value) : result value :=
  match d with
  | VDict fields => Ok (default dflt (dict_get fields k))
  | _ => Raise AttributeError
  end.

(** [d[k]] for a string key. *)
Definition subscript (d : value) (k : string) : result value :=
  match d with
  | VDict fields =>
      match dict_get fields k with
      | Some v => Ok v
      | None => Raise KeyError
      end
  | _ => Raise TypeError
  end.

(** [v == s] for a string literal [s]. *)
Definition eq_str (v : value) (s : string) : bool :=
  match v with
  | VStr s' => String.eqb s' s
  | _ => false
  end.

(** [k in v] for a string literal [k]: key of a dict, substring of a string,
    element of a list; numbers, booleans and [None] are not containers. *)
Definition contains (k : string) (v : value) : result bool :=
  match v with
  | VDict fields => Ok (bool_decide (is_Some (dict_get fields k)))
  | VStr s => Ok (Py.contains k s)
  | VList items => Ok (existsb (fun x => eq_str x k) items)
  | _ => Raise TypeError
  end.

(** A float spelling denotes zero when its mantissa has no non-zero digit. *)
Definition is_any (cs : list ascii) (c : ascii) : bool :=
  existsb (Ascii.eqb c) cs.

Fixpoint mantissa_zero (s : string) : bool :=
  match s with
  | "" => true
  | String c s' =>
      if is_any ["e"; "E"]%char c then true
      else if is_any ["-"; "+"; "."; "0"]%char c then mantissa_zero s'
      else false
  end.

(** Truth value of a Python object. *)
Definition truthy (v : value) : bool :=
  match v with
  | VNone => false
  | VBool b => b
  | VInt z => negb (z =? 0)%Z
  | VFloat f => negb (mantissa_zero f)
  | VStr s => negb (String.eqb s "")
  | VList items => match items with [] => false | _ => true end
  | VDict fields => match fields with [] => false | _ => true end
  end.

Definition hex_digit (n : nat) : ascii :=
  match n with
  | 0 => "0" | 1 => "1" | 2 => "2" | 3 => "3" | 4 => "4" | 5 => "5"
  | 6 => "6" | 7 => "7" | 8 => "8" | 9 => "9" | 10 => "a" | 11 => "b"
  | 12 => "c" | 13 => "d" | 14 => "e" | _ => "f"
  end%char.

Definition hex2 (n : nat) : string :=
  String (hex_digit (n / 16)) (String (hex_digit (n mod 16)) "").

(** [repr] of a string: single quotes unless the text has a single quote and
    no double quote; backslash escapes for the quote, the backslash, tab,
    newline, carriage return and the unprintable code points. *)
Definition repr_char (quote c : ascii) : string :=
  let n := Py.ord c in
  if Ascii.eqb c quote || Ascii.eqb c "\"%char then String "\"%char (String c "")
  else if (n =? 9)%nat then "\t"
  else if (n =? 10)%nat then "\n"
  else if (n =? 13)%nat then "\r"
  else if ((n <? 32) || (n =? 127) || (128 <=? n) && (n <=? 160)
           || (n =? 173))%nat
  then "\x" +:+ hex2 n
  else String c "".

Fixpoint repr_body (quote : ascii) (s : string) : string :=
  match s with
  | "" => ""
  | String c s' => repr_char quote c +:+ repr_body quote s'
  end.

Definition dquote : ascii := Py.chr 34.

Definition repr_str (s : string) : string :=
  let quote :=
    if Py.contains "'" s && negb (Py.contains (String dquote "") s)
    then dquote else "'"%char in
  String quote (repr_body quote s) +:+ String quote "".

Fixpoint repr (v : value) : string :=
  match v with
  | VNone => "None"
  | VBool true => "True"
  | VBool false => "False"
  | VInt z => Py.of_Z z
  | VFloat f => f
  | VStr s => repr_str s
  | VList items => "[" +:+ Py.join ", " (map repr items) +:+ "]"
  | VDict fields =>
      "{" +:+ Py.join ", "
                (map (fun kv => repr_str (fst kv) +:+ ": " +:+ repr (snd kv))
                     fields) +:+ "}"
  end.

(** [str(v)], which is also what an f-string field prints. *)
Definition str (v : value) : string :=
  match v with
  | VStr s => s
  | _ => repr v
  end.

End Val.

(** ** What the Python runtime supplies *)

(** A [datetime]; [tzinfo] is the UTC offset in seconds of an aware one. *)
Record datetime : Type := mk_datetime {
  year : Z;
  month : Z;
  day : Z;
  hour : Z;
  minute : Z;
  second : Z;
  microsecond : Z;
  tzinfo : option Z
}.

Class Runtime : Type := {
  (** [json.loads(line)]; [None] stands for [JSONDecodeError] *)
  json_loads : string -> option value;
  (** [hashlib.md5(s.encode()).hexdigest()] *)
  md5_hexdigest : string -> string;
  (** [datetime.fromisoformat(s)]; [None] stands for [ValueError] *)
  fromisoformat : string -> option datetime;
  (** [Path(p).name] *)
  path_name : string -> string
}.

(** A path is the list of its components. *)
Definition path : Type := list string.

(** [p / s] for a string [s] that is one component ([Spec.segment]) or
    empty; joining the empty string leaves the path as it is. [pathlib]
    splits a string that holds a separator into several components and
    drops a [.] component, so for such a string the list below is not the
    path [pathlib] builds: a statement that tells two joined paths apart
    assumes that the joined strings are segments. Components are compared
    as they are spelled. *)
Definition path_join (p : path) (s : string) : path :=
  if String.eqb s "" then p else p ++ [s].

(** ** claude-to-markdown-v3.py *)

Module Convert.

Definition nl : string := Py.nl.
Definition truncated : string := "..." +:+ nl +:+ "[truncated]".
Definition fence (lang body : string) : string :=
  "```" +:+ lang +:+ nl +:+ body +:+ nl +:+ "```".

(** *** get_device_info *)

(** [hostname] is [socket.gethostname()], [system] is [platform.system()]
    and [release] is [platform.uname().release]. *)
Definition get_device_info (hostname system release : string)
  : string * string :=
  let is_wsl := Py.contains "microsoft" (Py.lower release) in
  if is_wsl then (hostname +:+ "-WSL", "WSL/Linux")
  else if String.eqb system "Windows" then (hostname, "Windows")
  else if String.eqb system "Darwin" then (hostname, "macOS")
  else (hostname, system).

(** *** extract_content *)

(** One input field of a tool invocation other than a Bash command. *)
Definition tool_use_field (kv : string * value) : value :=
  let key := kv.1 in
  let v := kv.2 in
  if String.eqb key "file_path" then VStr ("File: `" +:+ Val.str v +:+ "`")
  else if String.eqb key "content" || String.eqb key "old_string"
          || String.eqb key "new_string"
  then
    let v :=
      match v with
      | VStr s =>
          if (500 <? Py.len s)%nat then VStr (Py.take 500 s +:+ truncated)
          else v
      | _ => v
      end in
    VStr (fence "" (Val.str v))
  else VStr (key +:+ ": " +:+ Val.str v).

Definition render_tool_use (item : value) : result (list value) :=
  tool_name ← Val.get item "name" (VStr "Unknown Tool");
  tool_input ← Val.get item "input" (VDict []);
  let header := VStr (nl +:+ "**[Tool: " +:+ Val.str tool_name +:+ "]**") in
  bash_command ←
    (if Val.eq_str tool_name "Bash" then Val.contains "command" tool_input
     else Ok false);
  if bash_command : bool then
    command ← Val.subscript tool_input "command";
    let block := VStr (fence "bash" (Val.str command)) in
    described ← Val.contains "description" tool_input;
    if described : bool then
      description ← Val.subscript tool_input "description";
      Ok [header; block; VStr ("*" +:+ Val.str description +:+ "*")]
    else Ok [header; block]
  else
    match tool_input with
    | VDict fields => Ok (header :: map tool_use_field fields)
    | _ => Raise AttributeError
    end.

Definition render_tool_result (item : value) : result (list value) :=
  result_content ← Val.get item "content" (VStr "");
  result_content ←
    match result_content with
    | VList (first :: _) =>
        match first with
        | VDict _ => Val.get first "text" (VStr "")
        | _ => Ok (VStr (Val.str first))
        end
    | _ => Ok result_content
    end;
  let result_content :=
    if (1000 <? Py.len (Val.str result_content))%nat
    then VStr (Py.take 1000 (Val.str result_content) +:+ truncated)
    else result_content in
  Ok [VStr (nl +:+ "**[Result]**"); VStr (fence "" (Val.str result_content))].

(** The body of the loop over the parts of a structured payload: the
    entries one part appends to [parts]. *)
Definition render_item (item : value) : result (list value) :=
  match item with
  | VStr _ => Ok [item]
  | VDict fields =>
      let type := default VNone (Val.dict_get fields "type") in
      if Val.eq_str type "text"
      then Ok [default (VStr "") (Val.dict_get fields "text")]
      else if Val.eq_str type "tool_use" then render_tool_use item
      else if Val.eq_str type "tool_result" then render_tool_result item
      else Ok []
  | _ => Ok []
  end.

Fixpoint render_items (items : list value) : result (list value) :=
  match items with
  | [] => Ok []
  | item :: rest =>
      p ← render_item item;
      ps ← render_items rest;
      Ok (p ++ ps)
  end.

(** [sep.join(parts)]: every part has to be a string. *)
Fixpoint strings_of (parts : list value) : result (list string) :=
  match parts with
  | [] => Ok []
  | VStr s :: rest => l ← strings_of rest; Ok (s :: l)
  | _ :: _ => Raise TypeError
  end.

Definition join_parts (sep : string) (parts : list value) : result string :=
  l ← strings_of parts; Ok (Py.join sep l).

Definition extract_content (message : value) : result string :=
  has_content ←
    (if Val.truthy message then Val.contains "content" message else Ok false);
  if negb has_content then Ok ""
  else
    content ← Val.subscript message "content";
    match content with
    | VStr s => Ok s
    | VList items => parts ← render_items items; join_parts nl parts
    | _ => Ok (Val.str content)
    end.

(** *** clean_filename *)

(** The first [re.sub]: the characters a file name may not hold are removed. *)
Definition invalid_filename_char (c : ascii) : bool :=
  Val.is_any ["<"; ">"; ":"; Val.dquote; "/"; "\"; "|"; "?"; "*"]%char c.

Fixpoint remove_invalid (s : string) : string :=
  match s with
  | "" => ""
  | String c s' =>
      if invalid_filename_char c then remove_invalid s'
      else String c (remove_invalid s')
  end.

(** The second [re.sub]: every run of whitespace becomes one space. *)
Fixpoint collapse_spaces (in_run : bool) (s : string) : string :=
  match s with
  | "" => ""
  | String c s' =>
      if Py.isspace c
      then if in_run then collapse_spaces true s'
           else String " " (collapse_spaces true s')
      else String c (collapse_spaces false s')
  end.

(** [s.rsplit(' ', 1)[0]]: the text before the last space, or all of [s]. *)
Fixpoint before_last_space (s : string) : string :=
  match s with
  | "" => ""
  | String c s' =>
      if Py.contains " " s' then String c (before_last_space s')
      else if Ascii.eqb c " " then ""
      else s
  end.

Definition clean_filename (text : string) (max_length : nat) : string :=
  let cleaned := remove_invalid text in
  let cleaned := Py.strip (collapse_spaces false cleaned) in
  if (max_length <? Py.len cleaned)%nat
  then before_last_space (Py.take max_length cleaned) +:+ "..."
  else cleaned.

(** *** format_timestamp *)

Definition pad (width : nat) (z : Z) : string :=
  let digits := Py.of_Z z in
  String.concat "" (repeat "0" (width - Py.len digits)) +:+ digits.

(** [dt.strftime('%H:%M:%S')] *)
Definition strftime_time (dt : datetime) : string :=
  pad 2 (hour dt) +:+ ":" +:+ pad 2 (minute dt) +:+ ":" +:+ pad 2 (second dt).

(** [dt.strftime('%Y-%m-%d')], the year on four digits. *)
Definition strftime_date (dt : datetime) : string :=
  pad 4 (year dt) +:+ "-" +:+ pad 2 (month dt) +:+ "-" +:+ pad 2 (day dt).

(** [dt.replace(tzinfo=None)] *)
Definition naive (dt : datetime) : datetime :=
  mk_datetime (year dt) (month dt) (day dt) (hour dt) (minute dt) (second dt)
              (microsecond dt) None.

Section WithRuntime.
Context `{Runtime}.

(** The [try] block of [format_timestamp] up to the parsed [dt]. Anything
    but a string makes it raise, as does a string that [fromisoformat]
    refuses: [None] stands for both. *)
Definition parse_timestamp (iso_timestamp : value) : option datetime :=
  match iso_timestamp with
  | VStr s =>
      if Py.contains "Z" s
      then fromisoformat (Py.replace_char "Z" "+00:00" s)
      else if Py.contains "+" s || (2 <? Py.count_char ":" s)%nat
      then fromisoformat s
      else fromisoformat s
  | _ => None
  end.

(** [now] is what [datetime.now()] returns if this call falls back to it. *)
Definition format_timestamp (now : datetime) (iso_timestamp : value)
  : string * string * datetime :=
  match parse_timestamp iso_timestamp with
  | Some dt =>
      let dt := match tzinfo dt with Some _ => naive dt | None => dt end in
      (strftime_time dt, strftime_date dt, dt)
  | None => (strftime_time now, strftime_date now, now)
  end.

End WithRuntime.

(** *** The difference of two naive datetimes *)

Definition is_leap (y : Z) : bool :=
  ((y mod 4 =? 0) && (negb (y mod 100 =? 0) || (y mod 400 =? 0)))%Z.

Definition days_before_year (y : Z) : Z :=
  let y := (y - 1)%Z in (y * 365 + y / 4 - y / 100 + y / 400)%Z.

Definition days_before_month (y m : Z) : Z :=
  (nth (Z.to_nat m) [0; 0; 31; 59; 90; 120; 151; 181; 212; 243; 273; 304; 334]
       0 + (if (2 <? m) && is_leap y then 1 else 0))%Z.

(** [date.toordinal()] *)
Definition toordinal (dt : datetime) : Z :=
  (days_before_year (year dt) + days_before_month (year dt) (month dt)
   + day dt)%Z.

Definition microseconds (dt : datetime) : Z :=
  ((((toordinal dt * 24 + hour dt) * 60 + minute dt) * 60 + second dt)
   * 1000000 + microsecond dt)%Z.

(** *** Floating-point arithmetic

    A float is kept as the pair [(m, e)] of its value [m * 2 ^ e], with a
    significand [m] of at most 53 bits. The quotients the program takes are
    far inside the range of the normal doubles. *)

(** [n / d] rounded to the nearest integer, ties to the even one, for a
    positive [d]. *)
Definition round_half_even (n d : Z) : Z :=
  let q := (n / d)%Z in
  let r := (n mod d)%Z in
  if (2 * r <? d)%Z then q
  else if (d <? 2 * r)%Z then (q + 1)%Z
  else if Z.even q then q else (q + 1)%Z.

(** The fraction [n / (d * 2 ^ e)] on integers. *)
Definition scaled (n d e : Z) : Z * Z :=
  (n * 2 ^ Z.max 0 (- e), d * 2 ^ Z.max 0 e)%Z.

(** The double nearest to the fraction [n / d], for a positive [d]: the
    exponent puts the significand between [2 ^ 52] and [2 ^ 53], and the
    significand is rounded to nearest, ties to even. *)
Definition nearest_double (n d : Z) : Z * Z :=
  if (n =? 0)%Z then (0, 0)%Z
  else
    let a := Z.abs n in
    let e0 := (Z.log2 a - Z.log2 d - 53)%Z in
    let nd0 := scaled a d e0 in
    let e := if (nd0.1 / nd0.2 <? 2 ^ 53)%Z then e0 else (e0 + 1)%Z in
    let nd := scaled a d e in
    (Z.sgn n * round_half_even nd.1 nd.2, e)%Z.

(** [timedelta.total_seconds()]: the count of microseconds over [10 ** 6],
    a true division of integers. *)
Definition total_seconds (microseconds : Z) : Z * Z :=
  nearest_double microseconds 1000000.

(** [x / k] for a float [x] and a positive integer [k]. *)
Definition float_div (x : Z * Z) (k : Z) : Z * Z :=
  let nd := scaled x.1 k (- x.2) in nearest_double nd.1 nd.2.

(** [int(x)] rounds toward zero. *)
Definition int_of_float (x : Z * Z) : Z :=
  Z.quot (x.1 * 2 ^ Z.max 0 x.2) (2 ^ Z.max 0 (- x.2)).

(** [int((last_dt - first_dt).total_seconds() / 60)] *)
Definition duration_minutes_between (first_dt last_dt : datetime) : Z :=
  int_of_float
    (float_div (total_seconds (microseconds last_dt - microseconds first_dt))
               60).

(** *** generate_tags *)

Definition keyword_tags : list (string * list string) :=
  [ ("python", ["python"; ".py"; "pip"; "django"; "flask"]);
    ("javascript", ["javascript"; ".js"; "node"; "npm"; "react"; "vue"]);
    ("docker", ["docker"; "container"; "dockerfile"]);
    ("git", ["git "; "commit"; "branch"; "merge"]);
    ("database", ["sql"; "database"; "postgres"; "mysql"; "mongodb"]);
    ("api", ["api"; "rest"; "graphql"; "endpoint"]);
    ("terminal", ["bash"; "shell"; "terminal"; "command"]);
    ("configuration", ["config"; "settings"; ".env"; "yaml"]) ].

Definition generate_tags (content project_path : string) : list string :=
  let tags :=
    (if Py.contains "wsl" (Py.lower project_path)
        || Py.contains "/mnt/" project_path then ["wsl"] else [])
    ++ (if Py.contains "windows" (Py.lower project_path)
           || Py.contains "C:\" project_path then ["windows"] else []) in
  let content_lower := Py.lower content in
  tags ++ map fst
            (filter (fun tk => existsb (fun k => Py.contains k content_lower)
                                       (snd tk))
                    keyword_tags).

(** *** decode_project_path *)

Definition decode_project_path (encoded_path : string) : string :=
  if negb (Py.startswith "-" encoded_path) then encoded_path
  else
    let decoded := Py.replace_char "-" "/" (Py.drop 1 encoded_path) in
    if Py.startswith "mnt/c/" decoded then "C:/" +:+ Py.drop 6 decoded
    else if Py.startswith "home/" decoded then "/" +:+ decoded
    else decoded.

(** *** get_session_file_path *)

(** The path is relative to [output_base_dir]. [startswith] is a method of
    [str] only. *)
Definition get_session_file_path (session_id : value) (device_name : string)
  : result path :=
  match session_id with
  | VStr session_id =>
      let folder :=
        if Py.startswith "unknown_" session_id then "unknown"
        else Py.take 2 session_id in
      let device_dir :=
        path_join (path_join (path_join [] "Devices") device_name) folder in
      Ok (path_join device_dir (session_id +:+ ".md"))
  | _ => Raise AttributeError
  end.

(** *** read_existing_metadata *)

(** The loop over the lines of the file. A line holds a colon exactly when
    [split(':', 1)] gives two parts. *)
Fixpoint read_frontmatter (in_frontmatter : bool) (lines : list string)
    (metadata : gmap string string) : gmap string string :=
  match lines with
  | [] => metadata
  | line :: rest =>
      if String.eqb (Py.strip line) "---"
      then if in_frontmatter then metadata
           else read_frontmatter true rest metadata
      else
        match Py.split_once ":" line with
        | Some (key, v) =>
            if in_frontmatter
            then read_frontmatter in_frontmatter rest
                   (<[Py.strip key := Py.strip v]> metadata)
            else read_frontmatter in_frontmatter rest metadata
        | None => read_frontmatter in_frontmatter rest metadata
        end
  end.

Definition read_existing_metadata (fs : gmap path string) (file_path : path)
  : option (gmap string string) :=
  match fs !! file_path with
  | None => None
  | Some text => Some (read_frontmatter false (Py.file_lines text) ∅)
  end.

(** *** json.dumps, for the two lists of the front matter *)

Definition json_escape_char (c : ascii) : string :=
  let n := Py.ord c in
  if Ascii.eqb c Val.dquote then String "\" (String Val.dquote "")
  else if Ascii.eqb c "\" then "\\"
  else if (n =? 10)%nat then "\n"
  else if (n =? 13)%nat then "\r"
  else if (n =? 9)%nat then "\t"
  else if (n =? 8)%nat then "\b"
  else if (n =? 12)%nat then "\f"
  else if ((32 <=? n) && (n <=? 126))%nat then String c ""
  else "\u00" +:+ Val.hex2 n.

Fixpoint json_escape (s : string) : string :=
  match s with
  | "" => ""
  | String c s' => json_escape_char c +:+ json_escape s'
  end.

Definition json_string (s : string) : string :=
  String Val.dquote (json_escape s) +:+ String Val.dquote "".

Fixpoint json_dumps (v : value) : string :=
  match v with
  | VNone => "null"
  | VBool true => "true"
  | VBool false => "false"
  | VInt z => Py.of_Z z
  | VFloat f => f
  | VStr s => json_string s
  | VList items => "[" +:+ Py.join ", " (map json_dumps items) +:+ "]"
  | VDict fields =>
      "{" +:+ Py.join ", "
                (map (fun kv => json_string (fst kv) +:+ ": "
                                +:+ json_dumps (snd kv)) fields) +:+ "}"
  end.

(** *** The set of tool names and its sorted list *)

Definition hashable (v : value) : bool :=
  match v with
  | VList _ | VDict _ => false
  | _ => true
  end.

Definition number_of (v : value) : option Z :=
  match v with
  | VInt z => Some z
  | VBool b => Some (if b then 1 else 0)%Z
  | _ => None
  end.

(** Equality of two hashable values. *)
Definition atom_eqb (a b : value) : bool :=
  match a, b with
  | VNone, VNone => true
  | VStr x, VStr y => String.eqb x y
  | VFloat x, VFloat y => String.eqb x y
  | _, _ =>
      match number_of a, number_of b with
      | Some x, Some y => (x =? y)%Z
      | _, _ => false
      end
  end.

(** [tools.add(name)] for a hashable [name]; the set is kept as the list of
    its elements. *)
Definition set_add (name : value) (tools : list value) : list value :=
  if existsb (atom_eqb name) tools then tools else tools ++ [name].

Fixpoint insert_by {A} (le : A -> A -> bool) (x : A) (l : list A) : list A :=
  match l with
  | [] => [x]
  | y :: rest => if le x y then x :: l else y :: insert_by le x rest
  end.

Definition sort_by {A} (le : A -> A -> bool) (l : list A) : list A :=
  foldr (insert_by le) [] l.

Definition string_of (v : value) : option string :=
  match v with
  | VStr s => Some s
  | _ => None
  end.

(** [sorted(list(tools))]. Strings sort by code point, integers and
    booleans by value; a list of two or more that mixes the kinds, or holds
    [None], cannot be compared. Floats, known by their spelling only, are
    counted with the latter. *)
Definition sorted_tools (tools : list value) : result (list value) :=
  match mapM string_of tools with
  | Some names => Ok (map VStr (sort_by String.leb names))
  | None =>
      if forallb (fun v => bool_decide (is_Some (number_of v))) tools
      then Ok (sort_by (fun a b => (default 0 (number_of a)
                                    <=? default 0 (number_of b))%Z) tools)
      else match tools with
           | [_] => Ok tools
           | _ => Raise TypeError
           end
  end.

Section WithRuntime.
Context `{Runtime}.

Definition loads (line : string) : result value :=
  match json_loads line with
  | Some v => Ok v
  | None => Raise JSONDecodeError
  end.

(** *** extract_tools_used *)

(** The loop over the parts of one message. An unhashable name raises
    inside the [try] block: the names added so far stay in the set and the
    handler moves on to the next line. *)
Fixpoint add_tools (items : list value) (tools : list value) : list value :=
  match items with
  | [] => tools
  | VDict fields :: rest =>
      if Val.eq_str (default VNone (Val.dict_get fields "type")) "tool_use"
      then
        let name := default (VStr "Unknown") (Val.dict_get fields "name") in
        if hashable name then add_tools rest (set_add name tools) else tools
      else add_tools rest tools
  | _ :: rest => add_tools rest tools
  end.

Definition line_tools (tools : list value) (line : string) : list value :=
  match json_loads line with
  | None => tools
  | Some entry =>
      match Val.get entry "message" (VDict []) with
      | Ok (VDict message) =>
          match Val.dict_get message "content" with
          | Some (VList items) => add_tools items tools
          | _ => tools
          end
      | _ => tools
      end
  end.

Definition extract_tools_used (lines : list string) : result (list value) :=
  sorted_tools (foldl line_tools [] lines).

(** *** convert_conversation, piece by piece *)

(** [[line.strip() for line in f if line.strip()]] *)
Definition read_lines (log : string) : list string :=
  filter (fun line => line ≠ "") (map Py.strip (Py.file_lines log)).

(** The body of the [try] block in the search for the first user message
    among the first ten lines: [Some] when the loop breaks. *)
Definition user_snippet (line : string) : result (option string) :=
  entry ← loads line;
  type ← Val.get entry "type" VNone;
  if Val.eq_str type "user" then
    message ← Val.get entry "message" (VStr "");
    Ok (Some (Py.take 100 (Val.str message)))
  else Ok None.

Fixpoint first_user_snippet (lines : list string) : string :=
  match lines with
  | [] => ""
  | line :: rest =>
      match user_snippet line with
      | Ok (Some first_msg) => first_msg
      | _ => first_user_snippet rest
      end
  end.

(** The stable identifier of a session that has none. *)
Definition unknown_session_id (parent_dir : string) (lines : list string)
  : string :=
  let first_msg := first_user_snippet (take 10 lines) in
  let id_source := parent_dir +:+ ":" +:+ first_msg in
  "unknown_" +:+ Py.take 12 (md5_hexdigest id_source).

Definition resolve_session_id (first_entry : value) (parent_dir : string)
    (lines : list string) : result value :=
  session_id ← Val.get first_entry "sessionId" (VStr "unknown");
  if Val.eq_str session_id "unknown"
  then Ok (VStr (unknown_session_id parent_dir lines))
  else Ok session_id.

(** The search for the title: the body of the [try] block, then the loop. *)
Definition line_title (line : string) : result (option string) :=
  entry ← loads line;
  type ← Val.get entry "type" VNone;
  message ← Val.get entry "message" VNone;
  if Val.eq_str type "user" && Val.truthy message then
    message ← Val.subscript entry "message";
    content ← extract_content message;
    if negb (String.eqb content "")
    then Ok (Some (clean_filename (Py.take 100 content) 50))
    else Ok None
  else Ok None.

Fixpoint find_title (lines : list string) (fallback : string) : string :=
  match lines with
  | [] => fallback
  | line :: rest =>
      match line_title line with
      | Ok (Some title) => title
      | _ => find_title rest fallback
      end
  end.

(** What one line adds to [full_content]. *)
Definition line_content (line : string) : string :=
  catch_all
    (entry ← loads line;
     has_message ← Val.contains "message" entry;
     if has_message : bool then
       message ← Val.subscript entry "message";
       content ← extract_content message;
       Ok (content +:+ nl)
     else Ok "")
    "".

Definition has_error_word (line : string) : bool :=
  Py.contains "error" (Py.lower line) || Py.contains "failed" (Py.lower line).

(** The body of the last loop: the lines of the transcript one log line
    adds. A line that does not decode is reported and skipped; any other
    exception leaves the loop. *)
Definition render_line (now : datetime) (line : string)
  : result (list string) :=
  match json_loads line with
  | None => Ok []
  | Some entry =>
      msg_type ← Val.get entry "type" (VStr "unknown");
      timestamp ← Val.get entry "timestamp" (VStr "");
      let '(time_str, date_str, _) := format_timestamp now timestamp in
      message ← Val.get entry "message" (VDict []);
      if Val.eq_str msg_type "user" then
        content ← extract_content message;
        Ok ["## 🧑 User [" +:+ date_str +:+ " " +:+ time_str +:+ "]";
            content; ""]
      else if Val.eq_str msg_type "assistant" then
        content ← extract_content message;
        Ok ["## 🤖 Assistant [" +:+ date_str +:+ " " +:+ time_str +:+ "]";
            content; ""]
      else if Val.eq_str msg_type "tool_result" then
        has_content ← Val.contains "content" entry;
        if has_content : bool then
          content ← Val.subscript entry "content";
          Ok ["### Tool Result [" +:+ time_str +:+ "]";
              fence "" (Val.str content); ""]
        else Ok ["### Tool Result [" +:+ time_str +:+ "]"; ""]
      else Ok []
  end.

(** The [i]-th line of the log reads the clock at [clock (2 + i)] when its
    timestamp does not parse. *)
Fixpoint render_lines (clock : nat -> datetime) (i : nat)
    (lines : list string) : result (list string) :=
  match lines with
  | [] => Ok []
  | line :: rest =>
      l ← render_line (clock (2 + i)) line;
      ls ← render_lines clock (S i) rest;
      Ok (l ++ ls)
  end.

(** *** convert_conversation *)

Inductive action : Type := Created | Updated.

(** What one conversion is about to write. *)
Record artifact : Type := mk_artifact {
  output_file : path;
  session_id : string;
  first_seen : string;
  md_content : list string
}.

(** The three ways [convert_conversation] returns: [None] for a log without
    lines, the pair of the session and the action, or the pair
    [(None, "Error")] of the outermost handler. *)
Inductive outcome : Type :=
| NoLines
| Converted (session_id : string) (a : action)
| Failed (e : exn).

Definition bool_lower (b : bool) : string := if b then "true" else "false".

(** The key-value block at the head of the artifact. *)
Definition front_matter (device_name platform_name user_type first_seen
    last_timestamp first_date_str session_id project_path project_name
    conversation_title message_count tools_used tags duration_minutes model
    status has_errors : string) : list string :=
  [ "---";
    "# Obsidian Bases Properties";
    "device: " +:+ device_name;
    "platform: " +:+ platform_name;
    "user: " +:+ user_type;
    "first_seen: " +:+ first_seen;
    "last_updated: " +:+ last_timestamp;
    "date: " +:+ first_date_str;
    "session_id: " +:+ session_id;
    "project_path: " +:+ project_path;
    "project_name: " +:+ project_name;
    "conversation_title: " +:+ conversation_title;
    "message_count: " +:+ message_count;
    "tools_used: " +:+ tools_used;
    "tags: " +:+ tags;
    "duration_minutes: " +:+ duration_minutes;
    "model: " +:+ model;
    "status: " +:+ status;
    "has_errors: " +:+ has_errors;
    "---" ].

(** The title and the summary lines under it. *)
Definition title_block (device_name platform_name first_date_str
    first_time_str last_date_str last_time_str session_id project_path
    conversation_title message_count duration_minutes : string)
  : list string :=
  [ "";
    "# " +:+ conversation_title;
    "";
    "**Session:** `" +:+ session_id +:+ "`";
    "**Device:** " +:+ device_name +:+ " | **Platform:** " +:+ platform_name;
    "**Started:** " +:+ first_date_str +:+ " " +:+ first_time_str
      +:+ " | **Updated:** " +:+ last_date_str +:+ " " +:+ last_time_str;
    "**Project:** `" +:+ project_path +:+ "`";
    "**Duration:** " +:+ duration_minutes
      +:+ " minutes | **Messages:** " +:+ message_count;
    "";
    "---";
    "" ].

(** [first_seen] is kept from the existing file when it records one. *)
Definition preserved_first_seen
    (existing_metadata : option (gmap string string))
    (first_timestamp : string) : string :=
  match existing_metadata with
  | Some metadata => default first_timestamp (metadata !! "first_seen")
  | None => first_timestamp
  end.

(** The [try] block from the first [json.loads] to the end of the last
    loop, for a log with at least one line. [clock 0] and [clock 1] are the
    readings of the clock for the first and the last timestamp. *)
Definition build (clock : nat -> datetime)
    (device_name platform_name parent_dir : string) (lines : list string)
    (fs : gmap path string) : result artifact :=
  first_entry ← loads (hd "" lines);
  last_entry ← loads (List.last lines "");
  session_id ← resolve_session_id first_entry parent_dir lines;
  output_file ← get_session_file_path session_id device_name;
  let session_id := Val.str session_id in
  let existing_metadata := read_existing_metadata fs output_file in
  cwd ← Val.get first_entry "cwd" (VStr "unknown");
  first_timestamp ← Val.get first_entry "timestamp" (VStr "");
  let first := format_timestamp (clock 0) first_timestamp in
  last_timestamp ← Val.get last_entry "timestamp" (VStr "");
  let last := format_timestamp (clock 1) last_timestamp in
  let duration_minutes := duration_minutes_between first.2 last.2 in
  let actual_project_path := decode_project_path parent_dir in
  let project_path :=
    if negb (String.eqb actual_project_path "")
       && negb (String.eqb actual_project_path "unknown")
    then VStr actual_project_path else cwd in
  project_name ←
    match project_path with
    | VStr p => Ok (if String.eqb p "unknown" then "general" else path_name p)
    | _ => Raise TypeError
    end;
  let project_path := Val.str project_path in
  let conversation_title :=
    find_title lines ("Session " +:+ Py.take 8 session_id) in
  tools_used ← extract_tools_used lines;
  let has_errors := existsb has_error_word lines in
  let full_content := String.concat "" (map line_content lines) in
  let tags := generate_tags full_content project_path in
  let status := if (duration_minutes <? 5)%Z then "active" else "completed" in
  let status := if has_errors then "completed_with_errors" else status in
  let first_seen :=
    preserved_first_seen existing_metadata (Val.str first_timestamp) in
  user_type ← Val.get first_entry "userType" (VStr "unknown");
  model ← Val.get first_entry "model" (VStr "unknown");
  let message_count := Py.of_Z (Z.of_nat (length lines)) in
  body ← render_lines clock 0 lines;
  Ok (mk_artifact output_file session_id first_seen
        (front_matter device_name platform_name (Val.str user_type)
           first_seen (Val.str last_timestamp) first.1.2 session_id
           project_path project_name conversation_title message_count
           (json_dumps (VList tools_used)) (json_dumps (VList (map VStr tags)))
           (Py.of_Z duration_minutes) (Val.str model) status
           (bool_lower has_errors)
         ++ title_block device_name platform_name first.1.2 first.1.1
              last.1.2 last.1.1 session_id project_path conversation_title
              message_count (Py.of_Z duration_minutes)
         ++ body)).

(** [log] is the text of the log file and [parent_dir] the name of its
    directory; [fs] is the tree under [output_base_dir]. The artifact is
    written last, so a run that raises leaves the tree as it was. *)
Definition convert_conversation (clock : nat -> datetime)
    (device_name platform_name parent_dir log : string)
    (fs : gmap path string) : outcome * gmap path string :=
  let lines := read_lines log in
  match lines with
  | [] => (NoLines, fs)
  | _ :: _ =>
      match build clock device_name platform_name parent_dir lines fs with
      | Ok a =>
          let action :=
            match fs !! output_file a with
            | Some _ => Updated
            | None => Created
            end in
          (Converted (session_id a) action,
           <[output_file a := Py.join nl (md_content a)]> fs)
      | Raise e => (Failed e, fs)
      end
  end.

(** *** main *)

(** The three counters of the summary. *)
Record tally : Type := mk_tally {
  created : nat;
  updated : nat;
  failed : nat
}.

(** The body of the loop after the call: [if result:] is false for [None]
    only; the pair [(None, "Error")] is true, and its action is neither
    [Created] nor [Updated]. *)
Definition count (result : outcome) (t : tally) : tally :=
  match result with
  | NoLines => mk_tally (created t) (updated t) (S (failed t))
  | Converted _ Created => mk_tally (S (created t)) (updated t) (failed t)
  | Converted _ Updated => mk_tally (created t) (S (updated t)) (failed t)
  | Failed _ => t
  end.

(** The loop over [jsonl_files]: a file is the name of its directory and its
    text; [clock i] is the clock during the conversion of the [i]-th file. *)
Fixpoint convert_all (clock : nat -> nat -> datetime) (i : nat)
    (device_name platform_name : string) (jsonl_files : list (string * string))
    (fs : gmap path string) (t : tally) : tally * gmap path string :=
  match jsonl_files with
  | [] => (t, fs)
  | (parent_dir, log) :: rest =>
      let r :=
        convert_conversation (clock i) device_name platform_name parent_dir
          log fs in
      convert_all clock (S i) device_name platform_name rest r.2 (count r.1 t)
  end.

(** How [main] ends: with the usage text and [sys.exit(1)], with the report
    of a missing source directory and [sys.exit(1)], with the report that no
    log was found, or with the summary. *)
Inductive ending : Type :=
| Usage
| NoSource
| NoFiles
| Summary (t : tally).

(** [argv] is [sys.argv], [dir_exists] tells whether a directory exists,
    [rglob] lists the logs under a directory, and [fs] is the tree under the
    output directory. *)
Definition main (argv : list string) (dir_exists : string -> bool)
    (rglob : string -> list (string * string)) (clock : nat -> nat -> datetime)
    (device_name platform_name : string) (fs : gmap path string)
  : ending * gmap path string :=
  match argv with
  | _ :: source_dir :: _ =>
      if negb (dir_exists source_dir) then (NoSource, fs)
      else
        match rglob source_dir with
        | [] => (NoFiles, fs)
        | jsonl_files =>
            let r :=
              convert_all clock 0 device_name platform_name jsonl_files fs
                (mk_tally 0 0 0) in
            (Summary r.1, r.2)
        end
  | _ => (Usage, fs)
  end.

End WithRuntime.

End Convert.

(** ** A reference runtime

    Executable stand-ins for the library functions of [Runtime], used to run
    the programs on concrete inputs. *)

Module MD5.

Definition mask32 (z : Z) : Z := Z.land z 4294967295.
Definition not32 (z : Z) : Z := Z.lxor z 4294967295.
Definition rotl32 (x c : Z) : Z :=
  mask32 (Z.lor (Z.shiftl x c) (Z.shiftr x (32 - c))).

Definition K : list Z :=
  [ 3614090360; 3905402710; 606105819; 3250441966;
    4118548399; 1200080426; 2821735955; 4249261313;
    1770035416; 2336552879; 4294925233; 2304563134;
    1804603682; 4254626195; 2792965006; 1236535329;
    4129170786; 3225465664; 643717713; 3921069994;
    3593408605; 38016083; 3634488961; 3889429448;
    568446438; 3275163606; 4107603335; 1163531501;
    2850285829; 4243563512; 1735328473; 2368359562;
    4294588738; 2272392833; 1839030562; 4259657740;
    2763975236; 1272893353; 4139469664; 3200236656;
    681279174; 3936430074; 3572445317; 76029189;
    3654602809; 3873151461; 530742520; 3299628645;
    4096336452; 1126891415; 2878612391; 4237533241;
    1700485571; 2399980690; 4293915773; 2240044497;
    1873313359; 4264355552; 2734768916; 1309151649;
    4149444226; 3174756917; 718787259; 3951481745 ]%Z.

Definition shifts : list Z :=
  [ 7; 12; 17; 22; 7; 12; 17; 22; 7; 12; 17; 22; 7; 12; 17; 22;
    5; 9; 14; 20; 5; 9; 14; 20; 5; 9; 14; 20; 5; 9; 14; 20;
    4; 11; 16; 23; 4; 11; 16; 23; 4; 11; 16; 23; 4; 11; 16; 23;
    6; 10; 15; 21; 6; 10; 15; 21; 6; 10; 15; 21; 6; 10; 15; 21 ]%Z.

Definition state : Type := Z * Z * Z * Z.

Definition round (M : list Z) (st : state) (i : nat) : state :=
  let '(a, b, c, d) := st in
  let '(f, g) :=
    if (i <? 16)%nat
    then (Z.lor (Z.land b c) (Z.land (not32 b) d), i)
    else if (i <? 32)%nat
    then (Z.lor (Z.land d b) (Z.land (not32 d) c), ((5 * i + 1) mod 16)%nat)
    else if (i <? 48)%nat
    then (Z.lxor b (Z.lxor c d), ((3 * i + 5) mod 16)%nat)
    else (Z.lxor c (Z.lor b (not32 d)), ((7 * i) mod 16)%nat) in
  let f := mask32 (f + a + nth i K 0 + nth g M 0)%Z in
  (d, mask32 (b + rotl32 f (nth i shifts 0))%Z, b, c).

Fixpoint word_le (bytes : list Z) : Z :=
  match bytes with
  | [] => 0
  | b :: rest => (b + 256 * word_le rest)%Z
  end.

Fixpoint words (n : nat) (bytes : list Z) : list Z :=
  match n with
  | O => []
  | S n' => word_le (take 4 bytes) :: words n' (drop 4 bytes)
  end.

Definition block (st : state) (bytes : list Z) : state :=
  let '(a, b, c, d) := st in
  let '(a', b', c', d') := foldl (round (words 16 bytes)) st (seq 0 64) in
  (mask32 (a + a'), mask32 (b + b'), mask32 (c + c'), mask32 (d + d'))%Z.

Fixpoint blocks (n : nat) (st : state) (bytes : list Z) : state :=
  match n with
  | O => st
  | S n' => blocks n' (block st (take 64 bytes)) (drop 64 bytes)
  end.

Fixpoint bytes_le (n : nat) (z : Z) : list Z :=
  match n with
  | O => []
  | S n' => (z mod 256)%Z :: bytes_le n' (z / 256)%Z
  end.

Definition padded (msg : list Z) : list Z :=
  let n := length msg in
  let zeros := ((55 + 64 - n mod 64) mod 64)%nat in
  msg ++ [128%Z] ++ repeat 0%Z zeros ++ bytes_le 8 (8 * Z.of_nat n).

Definition digest (msg : list Z) : list Z :=
  let p := padded msg in
  let '(a, b, c, d) :=
    blocks (length p / 64)
           (1732584193, 4023233417, 2562383102, 271733878)%Z p in
  bytes_le 4 a ++ bytes_le 4 b ++ bytes_le 4 c ++ bytes_le 4 d.

(** [s.encode()]: UTF-8 of code points below 256. *)
Fixpoint encode (s : string) : list Z :=
  match s with
  | "" => []
  | String c s' =>
      let n := Z.of_nat (Py.ord c) in
      (if (n <? 128)%Z then [n] else [192 + n / 64; 128 + n mod 64]%Z)
      ++ encode s'
  end.

Definition hexdigest (s : string) : string :=
  String.concat "" (map (fun b => Val.hex2 (Z.to_nat b)) (digest (encode s))).

End MD5.

Module Json.

Definition is_ws (c : ascii) : bool :=
  Val.is_any [" "%char; Py.chr 9; Py.LF; Py.CR] c.

Fixpoint skip_ws (s : string) : string :=
  match s with
  | String c s' => if is_ws c then skip_ws s' else s
  | "" => ""
  end.

Definition is_digit (c : ascii) : bool :=
  (48 <=? Py.ord c)%nat && (Py.ord c <=? 57)%nat.

Definition hex_value (c : ascii) : option nat :=
  let n := Py.ord c in
  if is_digit c then Some (n - 48)
  else if ((97 <=? n) && (n <=? 102))%nat then Some (n - 87)
  else if ((65 <=? n) && (n <=? 70))%nat then Some (n - 55)
  else None.

(** Leading characters of [s] that satisfy [p], and what follows. *)
Fixpoint span (p : ascii -> bool) (s : string) : string * string :=
  match s with
  | String c s' =>
      if p c then let '(l, r) := span p s' in (String c l, r) else ("", s)
  | "" => ("", "")
  end.

Fixpoint digits_value (s : string) (acc : Z) : Z :=
  match s with
  | String c s' => digits_value s' (10 * acc + Z.of_nat (Py.ord c - 48))
  | "" => acc
  end.

(** The text of a string literal after its opening quote. An escape above
    255 is outside the character model and is refused. *)
Fixpoint string_body (s : string) : option (string * string) :=
  match s with
  | "" => None
  | String c s' =>
      if Ascii.eqb c Val.dquote then Some ("", s')
      else if Ascii.eqb c "\" then
        match s' with
        | String e s'' =>
            let simple (x : ascii) :=
              match string_body s'' with
              | Some (l, r) => Some (String x l, r)
              | None => None
              end in
            if Ascii.eqb e "u" then
              match s'' with
              | String h1 (String h2 (String h3 (String h4 s''')))  =>
                  match hex_value h1, hex_value h2, hex_value h3,
                        hex_value h4, string_body s''' with
                  | Some 0, Some 0, Some a, Some b, Some (l, r) =>
                      Some (String (Py.chr (16 * a + b)) l, r)
                  | _, _, _, _, _ => None
                  end
              | _ => None
              end
            else if Ascii.eqb e "n" then simple Py.LF
            else if Ascii.eqb e "r" then simple Py.CR
            else if Ascii.eqb e "t" then simple (Py.chr 9)
            else if Ascii.eqb e "b" then simple (Py.chr 8)
            else if Ascii.eqb e "f" then simple (Py.chr 12)
            else if Val.is_any [Val.dquote; "\"; "/"]%char e then simple e
            else None
        | "" => None
        end
      else if (Py.ord c <? 32)%nat then None
      else
        match string_body s' with
        | Some (l, r) => Some (String c l, r)
        | None => None
        end
  end.

(** A number: an integer part without leading zeros, then an optional
    fraction and an optional exponent; with either, the number is a float. *)
Definition number (s : string) : option (value * string) :=
  let negative := Py.startswith "-" s in
  let s1 := if negative then Py.drop 1 s else s in
  let '(int_part, s2) := span is_digit s1 in
  if String.eqb int_part ""
     || Py.startswith "0" int_part && negb (String.eqb int_part "0")
  then None
  else
    let frac :=
      match s2 with
      | String "."%char r =>
          let '(d, r') := span is_digit r in
          if String.eqb d "" then None else Some ("." +:+ d, r')
      | _ => Some ("", s2)
      end in
    match frac with
    | None => None
    | Some (frac_part, s3) =>
        let exp :=
          match s3 with
          | String e r =>
              if Val.is_any ["e"; "E"]%char e then
                let '(sign, r1) :=
                  match r with
                  | String g r1 =>
                      if Val.is_any ["+"; "-"]%char g
                      then (String g "", r1) else ("", r)
                  | "" => ("", r)
                  end in
                let '(d, r2) := span is_digit r1 in
                if String.eqb d "" then None
                else Some (String e sign +:+ d, r2)
              else Some ("", s3)
          | "" => Some ("", s3)
          end in
        match exp with
        | None => None
        | Some (exp_part, s4) =>
            let sign := if negative then "-" else "" in
            if String.eqb frac_part "" && String.eqb exp_part ""
            then
              let n := digits_value int_part 0 in
              Some (VInt (if negative then - n else n)%Z, s4)
            else
              Some (VFloat (sign +:+ int_part +:+ frac_part +:+ exp_part), s4)
        end
    end.

(** [d[k] = v] on a dict kept as its items: a key met again keeps its
    place and takes the new value. *)
Fixpoint dict_set (fields : list (string * value)) (k : string) (v : value)
  : list (string * value) :=
  match fields with
  | [] => [(k, v)]
  | (k', v') :: rest =>
      if String.eqb k' k then (k, v) :: rest
      else (k', v') :: dict_set rest k v
  end.

Fixpoint parse_value (fuel : nat) (s : string) : option (value * string) :=
  match fuel with
  | O => None
  | S fuel =>
      match skip_ws s with
      | "" => None
      | String c r as s =>
          if Ascii.eqb c "{" then
            match skip_ws r with
            | String "}"%char r' => Some (VDict [], r')
            | _ => parse_members fuel r []
            end
          else if Ascii.eqb c "[" then
            match skip_ws r with
            | String "]"%char r' => Some (VList [], r')
            | _ => parse_elements fuel r []
            end
          else if Ascii.eqb c Val.dquote then
            match string_body r with
            | Some (text, r') => Some (VStr text, r')
            | None => None
            end
          else if Py.startswith "true" s then Some (VBool true, Py.drop 4 s)
          else if Py.startswith "false" s then Some (VBool false, Py.drop 5 s)
          else if Py.startswith "null" s then Some (VNone, Py.drop 4 s)
          else if Py.startswith "NaN" s then Some (VFloat "nan", Py.drop 3 s)
          else if Py.startswith "Infinity" s
          then Some (VFloat "inf", Py.drop 8 s)
          else if Py.startswith "-Infinity" s
          then Some (VFloat "-inf", Py.drop 9 s)
          else number s
      end
  end
with parse_elements (fuel : nat) (s : string) (acc : list value)
  : option (value * string) :=
  match fuel with
  | O => None
  | S fuel =>
      match parse_value fuel s with
      | Some (v, r) =>
          match skip_ws r with
          | String c r' =>
              if Ascii.eqb c "," then parse_elements fuel r' (acc ++ [v])
              else if Ascii.eqb c "]" then Some (VList (acc ++ [v]), r')
              else None
          | "" => None
          end
      | None => None
      end
  end
with parse_members (fuel : nat) (s : string) (acc : list (string * value))
  : option (value * string) :=
  match fuel with
  | O => None
  | S fuel =>
      match skip_ws s with
      | String q r =>
          if Ascii.eqb q Val.dquote then
            match string_body r with
            | Some (key, r1) =>
                match skip_ws r1 with
                | String ":"%char r2 =>
                    match parse_value fuel r2 with
                    | Some (v, r3) =>
                        match skip_ws r3 with
                        | String c r4 =>
                            if Ascii.eqb c ","
                            then parse_members fuel r4 (dict_set acc key v)
                            else if Ascii.eqb c "}"
                            then Some (VDict (dict_set acc key v), r4)
                            else None
                        | "" => None
                        end
                    | None => None
                    end
                | _ => None
                end
            | None => None
            end
          else None
      | "" => None
      end
  end.

(** [json.loads]: one value, with nothing but whitespace around it. *)
Definition loads (s : string) : option value :=
  match parse_value (2 * Py.len s + 2) s with
  | Some (v, r) => if String.eqb (skip_ws r) "" then Some v else None
  | None => None
  end.

End Json.

Module Iso.

(** [n] decimal digits at the head of [s]. *)
Fixpoint digits (n : nat) (s : string) (acc : Z) : option (Z * string) :=
  match n with
  | O => Some (acc, s)
  | S n' =>
      match s with
      | String c r =>
          if Json.is_digit c
          then digits n' r (10 * acc + Z.of_nat (Py.ord c - 48))
          else None
      | "" => None
      end
  end.

Definition expect (c : ascii) (s : string) : option string :=
  match s with
  | String a r => if Ascii.eqb a c then Some r else None
  | "" => None
  end.

Definition days_in_month (y m : Z) : Z :=
  if (m =? 2)%Z then (if Convert.is_leap y then 29 else 28)%Z
  else if existsb (Z.eqb m) [4; 6; 9; 11]%Z then 30%Z else 31%Z.

(** [HH[:MM[:SS[.fff[fff]]]]]: hour, minute, second, microsecond. *)
Definition clock_fields (s : string) : option (Z * Z * Z * Z * string) :=
  '(hh, r) ← digits 2 s 0;
  match expect ":" r with
  | None => Some (hh, 0, 0, 0, r)%Z
  | Some r =>
      '(mm, r) ← digits 2 r 0;
      match expect ":" r with
      | None => Some (hh, mm, 0, 0, r)%Z
      | Some r =>
          '(ss, r) ← digits 2 r 0;
          match expect "." r with
          | None => Some (hh, mm, ss, 0, r)%Z
          | Some r =>
              match digits 6 r 0 with
              | Some (us, r) => Some (hh, mm, ss, us, r)
              | None =>
                  '(ms, r) ← digits 3 r 0;
                  Some (hh, mm, ss, ms * 1000, r)%Z
              end
          end
      end
  end.

Definition in_range (lo hi z : Z) : bool := ((lo <=? z) && (z <=? hi))%Z.

(** [datetime.fromisoformat] as Python 3.7 to 3.10 read it: a date, then
    optionally any one separator, a time and a UTC offset. *)
Definition fromisoformat (s : string) : option datetime :=
  '(y, r) ← digits 4 s 0;
  r ← expect "-" r;
  '(m, r) ← digits 2 r 0;
  r ← expect "-" r;
  '(d, r) ← digits 2 r 0;
  if negb (in_range 1 9999 y && in_range 1 12 m
           && in_range 1 (days_in_month y m) d)
  then None
  else
    match r with
    | "" => Some (mk_datetime y m d 0 0 0 0 None)
    | String _ r =>
        '(hh, mm, ss, us, r) ← clock_fields r;
        if negb (in_range 0 23 hh && in_range 0 59 mm && in_range 0 59 ss)
        then None
        else
          match r with
          | "" => Some (mk_datetime y m d hh mm ss us None)
          | String sign r =>
              if Val.is_any ["+"; "-"]%char sign then
                '(oh, om, os, _, r) ← clock_fields r;
                if String.eqb r "" && in_range 0 23 oh && in_range 0 59 om
                   && in_range 0 59 os
                then
                  let offset := ((oh * 60 + om) * 60 + os)%Z in
                  Some (mk_datetime y m d hh mm ss us
                          (Some (if Ascii.eqb sign "-" then - offset
                                 else offset)%Z))
                else None
              else None
          end
    end.

End Iso.

Module Posix.

Fixpoint split_char (c : ascii) (s : string) : list string :=
  match s with
  | "" => [""]
  | String a s' =>
      if Ascii.eqb a c then "" :: split_char c s'
      else match split_char c s' with
           | l :: ls => String a l :: ls
           | [] => [String a ""]
           end
  end.

(** [PurePosixPath(p).name]: the last component, empty and [.] components
    set aside. *)
Definition name (p : string) : string :=
  List.last
    (filter (fun c => c ≠ "" ∧ c ≠ ".") (split_char "/" p)) "".

End Posix.

#[global] Instance reference_runtime : Runtime := {|
  json_loads := Json.loads;
  md5_hexdigest := MD5.hexdigest;
  fromisoformat := Iso.fromisoformat;
  path_name := Posix.name
|}.

(** ** migrate-duplicates.py *)

Module Migrate.

(** *** The file system the script works on

    Paths are absolute and kept as their [parts]. An uncaught exception ends
    the script where it stands: what was copied and moved before stays. *)

Record state : Type := mk_state {
  fs : gmap path string;
  files_migrated : nat;
  duplicates_removed : nat
}.

Inductive run (A : Type) : Type :=
| Done (a : A) (st : state)
| Aborted (e : exn) (st : state).
Arguments Done {A} a st.
Arguments Aborted {A} e st.

Definition M (A : Type) : Type := state -> run A.

Definition ret {A} (a : A) : M A := fun st => Done a st.
Definition raise {A} (e : exn) : M A := fun st => Aborted e st.
Definition bind {A B} (m : M A) (f : A -> M B) : M B := fun st =>
  match m st with
  | Done a st' => f a st'
  | Aborted e st' => Aborted e st'
  end.

#[global] Instance M_ret : MRet M := @ret.
#[global] Instance M_bind : MBind M := fun _ _ f m => bind m f.

Definition with_fs (f : gmap path string -> gmap path string) : M unit :=
  fun st => Done () (mk_state (f (fs st)) (files_migrated st)
                              (duplicates_removed st)).

(** [open(filepath).read()] *)
Definition read_text (filepath : path) : M string := fun st =>
  match fs st !! filepath with
  | Some text => Done text st
  | None => Aborted FileNotFoundError st
  end.

(** [shutil.copy2(src, dst)] *)
Definition copy2 (src dst : path) : M unit :=
  text ← read_text src;
  if bool_decide (src = dst) then raise SameFileError
  else with_fs (fun fs => <[dst := text]> fs).

(** [shutil.move(src, dst)] for a [dst] other than [src] *)
Definition move (src dst : path) : M unit :=
  text ← read_text src;
  with_fs (fun fs => <[dst := text]> (delete src fs)).

Definition count_migrated : M unit := fun st =>
  Done () (mk_state (fs st) (S (files_migrated st)) (duplicates_removed st)).

Definition count_duplicate : M unit := fun st =>
  Done () (mk_state (fs st) (files_migrated st) (S (duplicates_removed st))).

(** *** extract_session_id *)

Fixpoint session_id_line (lines : list string) : option string :=
  match lines with
  | [] => None
  | line :: rest =>
      if Py.startswith "session_id:" line
      then Some (Py.strip (Py.drop 11 line))
      else session_id_line rest
  end.

Definition extract_session_id (filepath : path) : M (option string) :=
  text ← read_text filepath;
  ret (session_id_line (Py.file_lines text)).

(** *** extract_metadata *)

Definition kept_key (key : string) : bool :=
  existsb (String.eqb key)
          ["message_count"; "timestamp"; "first_seen"; "last_updated"].

Fixpoint read_frontmatter (in_frontmatter : bool) (lines : list string)
    (metadata : gmap string string) : gmap string string :=
  match lines with
  | [] => metadata
  | line :: rest =>
      if String.eqb (Py.strip line) "---"
      then if in_frontmatter then metadata
           else read_frontmatter true rest metadata
      else
        match Py.split_once ":" line with
        | Some (key, v) =>
            if in_frontmatter && kept_key (Py.strip key)
            then read_frontmatter in_frontmatter rest
                   (<[Py.strip key := Py.strip v]> metadata)
            else read_frontmatter in_frontmatter rest metadata
        | None => read_frontmatter in_frontmatter rest metadata
        end
  end.

(** Digits with single underscores between them. *)
Fixpoint digit_groups (s : string) (after_digit : bool) (acc : Z)
  : option Z :=
  match s with
  | "" => if after_digit then Some acc else None
  | String c s' =>
      if Json.is_digit c
      then digit_groups s' true (10 * acc + Z.of_nat (Py.ord c - 48))
      else if Ascii.eqb c "_" && after_digit then digit_groups s' false acc
      else None
  end.

(** [int(s)] for a string: blanks around, a sign, decimal digits;
    [None] stands for [ValueError]. *)
Definition int (s : string) : option Z :=
  match Py.strip s with
  | String "-"%char d => Z.opp <$> digit_groups d false 0
  | String "+"%char d => digit_groups d false 0
  | d => digit_groups d false 0
  end.

(** The metadata of a file; [message_count] becomes an integer, 0 when it
    does not parse. *)
Definition metadata_of (text : string) : gmap string value :=
  let metadata :=
    VStr <$> read_frontmatter false (Py.file_lines text) ∅ in
  match metadata !! "message_count" with
  | Some (VStr count) =>
      <["message_count" := VInt (default 0%Z (int count))]> metadata
  | _ => metadata
  end.

Definition extract_metadata (filepath : path) : M (gmap string value) :=
  text ← read_text filepath;
  ret (metadata_of text).

(** *** get_new_path *)

Definition get_new_path (session_id device_name : string) (base_dir : path)
  : path :=
  let folder :=
    if Py.startswith "unknown" session_id then "unknown"
    else Py.take 2 session_id in
  path_join (path_join (path_join (path_join base_dir "Devices") device_name)
                       folder) (session_id +:+ ".md").

(** *** main *)

Definition vault_dir : path :=
  ["C:\"; "Users"; "josh"; "Documents"; "Mine";
   "Claude Code Conversation Backups (Automated)"].
Definition old_devices_dir : path := path_join vault_dir "Devices".
Definition backup_dir : path := path_join vault_dir "OLD_STRUCTURE_BACKUP".

(** [sessions[session_id].append(filepath)] on a dict kept as its items. *)
Fixpoint append_to (sessions : list (string * list path)) (session_id : string)
    (filepath : path) : list (string * list path) :=
  match sessions with
  | [] => [(session_id, [filepath])]
  | (k, files) :: rest =>
      if String.eqb k session_id then (k, files ++ [filepath]) :: rest
      else (k, files) :: append_to rest session_id filepath
  end.

(** The grouping loop over [all_files]. *)
Fixpoint group_sessions (all_files : list path)
    (sessions : list (string * list path)) : M (list (string * list path)) :=
  match all_files with
  | [] => ret sessions
  | filepath :: rest =>
      session_id ← extract_session_id filepath;
      match session_id with
      | Some (String _ _ as session_id) =>
          group_sessions rest (append_to sessions session_id filepath)
      | _ => group_sessions rest sessions
      end
  end.

(** The loop that keeps the most complete file of a group. *)
Fixpoint select_best (files : list path) (best_file : option path)
    (best_count : Z) : M (option path * Z) :=
  match files with
  | [] => ret (best_file, best_count)
  | f :: rest =>
      metadata ← extract_metadata f;
      let msg_count :=
        match metadata !! "message_count" with
        | Some (VInt n) => n
        | _ => 0%Z
        end in
      if (best_count <? msg_count)%Z then select_best rest (Some f) msg_count
      else select_best rest best_file best_count
  end.

(** [f.parts[-5]] *)
Definition device_of (f : path) : M string :=
  match reverse f !! 4%nat with
  | Some part => ret part
  | None => raise IndexError
  end.

(** [f.relative_to(old_devices_dir)] for a file found under it. *)
Definition relative_to (f dir : path) : path := drop (length dir) f.

Definition backup (f : path) : M unit :=
  move f (backup_dir ++ relative_to f old_devices_dir).

Fixpoint backup_all (files : list path) (best_file : path) : M unit :=
  match files with
  | [] => ret ()
  | f :: rest =>
      backup f;;
      (if bool_decide (f = best_file) then ret () else count_duplicate);;
      backup_all rest best_file
  end.

(** The body of the loop over [sessions.items()]. *)
Definition migrate_session (session_id : string) (files : list path)
  : M unit :=
  match files with
  | _ :: _ :: _ =>
      best ← select_best files None 0;
      match best.1 with
      | None => raise AttributeError
      | Some best_file =>
          device_name ← device_of best_file;
          let new_path := get_new_path session_id device_name vault_dir in
          copy2 best_file new_path;;
          count_migrated;;
          backup_all files best_file
      end
  | f :: _ =>
      device_name ← device_of f;
      let new_path := get_new_path session_id device_name vault_dir in
      copy2 f new_path;;
      backup f;;
      count_migrated
  | [] => raise IndexError
  end.

Fixpoint migrate_sessions (sessions : list (string * list path)) : M unit :=
  match sessions with
  | [] => ret ()
  | (session_id, files) :: rest =>
      migrate_session session_id files;;
      migrate_sessions rest
  end.

(** [all_files] is what [rglob] found under [Devices], in the order the
    system lists it. *)
Definition main (all_files : list path) : M unit :=
  sessions ← group_sessions all_files [];
  migrate_sessions sessions.

End Migrate.

(** ** The design document's words, as definitions *)

Module Spec.

(** The text a tool-result part shows: the text of the first element when
    the result content is a non-empty list, the content itself otherwise. *)
Definition result_text (fields : list (string * value)) : string :=
  match default (VStr "") (Val.dict_get fields "content") with
  | VList (VDict first :: _) =>
      Val.str (default (VStr "") (Val.dict_get first "text"))
  | VList (first :: _) => Val.str first
  | content => Val.str content
  end.

(** The derived duration of the design document: the span in seconds over
    60, rounded down, and not below zero. *)
Definition duration_minutes (first_dt last_dt : datetime) : Z :=
  Z.max 0 ((Convert.microseconds last_dt - Convert.microseconds first_dt)
           / 60000000).

Section Resolver.
Context `{Runtime}.

(** [line] decodes to an entry of type user whose message is [message]; an
    entry without a message counts with the empty string. *)
Definition user_entry (line : string) (message : value) : Prop :=
  exists fields,
    json_loads line = Some (VDict fields)
    /\ Val.dict_get fields "type" = Some (VStr "user")
    /\ message = default (VStr "") (Val.dict_get fields "message").

(** [scan n lines snippet]: [snippet] is what the scan of the first [n]
    lines finds, the first 100 characters of [str] of the message of the
    first user entry, or the empty string when there is none. *)
Inductive scan (n : nat) (lines : list string) : string -> Prop :=
| scan_found (i : nat) (line : string) (message : value) :
    (i < n)%nat ->
    lines !! i = Some line ->
    user_entry line message ->
    (forall j l m, (j < i)%nat -> lines !! j = Some l -> ~ user_entry l m) ->
    scan n lines (Py.take 100 (Val.str message))
| scan_none :
    (forall j l m, (j < n)%nat -> lines !! j = Some l -> ~ user_entry l m) ->
    scan n lines "".

(** The snippet of the design document: the first 100 characters of the
    normalized content of the first user entry among the first ten lines. *)
Definition normalized_snippet (line : string) : option string :=
  match json_loads line with
  | Some (VDict fields) =>
      if Val.eq_str (default VNone (Val.dict_get fields "type")) "user"
      then Some (Py.take 100
                   (catch_all (Convert.extract_content
                                 (default (VStr "")
                                          (Val.dict_get fields "message")))
                              ""))
      else None
  | _ => None
  end.

Fixpoint first_normalized_snippet (lines : list string) : string :=
  match lines with
  | [] => ""
  | line :: rest =>
      match normalized_snippet line with
      | Some snippet => snippet
      | None => first_normalized_snippet rest
      end
  end.

(** The synthesized key of the design document: the digest is taken over
    the decoded project directory and the normalized snippet. *)
Definition session_key (parent_dir : string) (lines : list string) : string :=
  "unknown_"
  +:+ Py.take 12
        (md5_hexdigest (Convert.decode_project_path parent_dir +:+ ":"
                        +:+ first_normalized_snippet (take 10 lines))).

(** The timestamp of [line] parses, when the line decodes to an entry with
    a timestamp to read. *)
Definition stamped (line : string) : Prop :=
  forall entry timestamp,
    json_loads line = Some entry ->
    Val.get entry "timestamp" (VStr "") = Ok timestamp ->
    is_Some (Convert.parse_timestamp timestamp).

(** The type of an entry, [unknown] for an entry without one. *)
Definition type_of (fields : list (string * value)) : value :=
  default (VStr "unknown") (Val.dict_get fields "type").

(** [line] is an entry the transcript shows under its time: a user, an
    assistant or a tool_result entry. *)
Definition timed (line : string) : Prop :=
  exists fields,
    json_loads line = Some (VDict fields)
    /\ (Val.eq_str (type_of fields) "user"
        || Val.eq_str (type_of fields) "assistant"
        || Val.eq_str (type_of fields) "tool_result") = true.

(** No reading of the clock enters the artifact: the timestamps of the
    first and of the last entry parse, and the timestamp of every entry that
    is shown under its time. *)
Definition clock_free (lines : list string) : Prop :=
  stamped (hd "" lines)
  /\ stamped (List.last lines "")
  /\ forall line, line ∈ lines -> timed line -> stamped line.

(** The loop over the transcript gets past [line]: the line does not
    decode and is skipped, or it decodes to an object, and to one whose
    message normalizes if it is a user or an assistant entry. *)
Definition renders (line : string) : Prop :=
  json_loads line = None
  \/ exists fields,
       json_loads line = Some (VDict fields)
       /\ ((Val.eq_str (type_of fields) "user"
            || Val.eq_str (type_of fields) "assistant") = true ->
           is_ok (Convert.extract_content
                    (default (VDict []) (Val.dict_get fields "message")))
           = true).

End Resolver.

(** [s] holds no line break. *)
Fixpoint one_line (s : string) : bool :=
  match s with
  | "" => true
  | String c s' => negb (Py.is_newline c) && one_line s'
  end.

(** The message count an artifact records: the integer its front matter
    gives for [message_count], and 0 when the field is missing or is not an
    integer. *)
Definition message_count (text : string) : Z :=
  match Migrate.read_frontmatter false (Py.file_lines text) ∅
        !! "message_count" with
  | Some recorded => default 0%Z (Migrate.int recorded)
  | None => 0%Z
  end.

(** The message count of the file at [f], 0 when there is no such file. *)
Definition count_at (fs : gmap path string) (f : path) : Z :=
  match fs !! f with
  | Some text => message_count text
  | None => 0%Z
  end.

(** The session key an artifact records. *)
Definition recorded_key (text : string) : option string :=
  Migrate.session_id_line (Py.file_lines text).

(** The file at [f] is an artifact of the session [session_id]. *)
Definition keyed (fs : gmap path string) (f : path) (session_id : string)
  : Prop :=
  exists text, fs !! f = Some text /\ recorded_key text = Some session_id.

(** The session key of the file at [f], if there is such a file and it
    records one. *)
Definition key_at (fs : gmap path string) (f : path) : option string :=
  match fs !! f with
  | Some text => recorded_key text
  | None => None
  end.

(** The files grouped under a session key. *)
Fixpoint files_of (sessions : list (string * list path)) (session_id : string)
  : list path :=
  match sessions with
  | [] => []
  | (k, files) :: rest =>
      if String.eqb k session_id then files else files_of rest session_id
  end.

(** What [rglob] lists: a path under [Devices] whose name ends in [.md]. *)
Definition is_artifact (p : path) : Prop :=
  take 7 p = Migrate.old_devices_dir
  /\ exists stem, List.last p "" = stem +:+ ".md".

(** The layout the consolidator expects:
    [Devices/DeviceName/YYYY/MM/DD/file.md]. *)
Definition legacy (p : path) : Prop :=
  exists device year month day name,
    p = Migrate.old_devices_dir ++ [device; year; month; day; name]
    /\ device <> "".

(** The device directory of a file in that layout. *)
Definition device (p : path) : string := default "" (reverse p !! 4%nat).

(** Where the consolidator moves the original at [f]. *)
Definition backup_path (f : path) : path :=
  Migrate.backup_dir ++ Migrate.relative_to f Migrate.old_devices_dir.

(** The canonical path of a session on a device. *)
Definition canonical (session_id device_name : string) : path :=
  Migrate.get_new_path session_id device_name Migrate.vault_dir.

(** The groups of a tree [fs0], as the loop over the groups meets them in
    a state where the files of the groups are still those of [fs0]. *)
Definition groups_of (fs0 : gmap path string) (st : Migrate.state)
    (ss : list (string * list path)) : Prop :=
  forall sid fl, (sid, fl) ∈ ss ->
    sid <> "" /\ fl <> [] /\ NoDup fl
    /\ forall f, f ∈ fl ->
         legacy f /\ is_Some (fs0 !! f) /\ Migrate.fs st !! f = fs0 !! f
         /\ key_at fs0 f = Some sid.

(** The paths the loop over the groups may write or remove, when [pick]
    gives the representative of each group. *)
Definition touched (ss : list (string * list path)) (pick : string -> path)
    (p : path) : Prop :=
  exists sid fl,
    (sid, fl) ∈ ss
    /\ (p ∈ fl \/ (exists f, f ∈ fl /\ p = backup_path f)
        \/ p = canonical sid (device (pick sid))).

(** Every character of [s] satisfies [p]. *)
Fixpoint all_chars (p : ascii -> bool) (s : string) : bool :=
  match s with
  | "" => true
  | String c s' => p c && all_chars p s'
  end.

(** A part that shows as the text [t]: a plain string, or a text part
    whose text is the string [t]; a text part without a text shows as the
    empty string. *)
Definition text_part (item : value) (t : string) : Prop :=
  item = VStr t
  \/ exists fields,
       item = VDict fields
       /\ Val.dict_get fields "type" = Some (VStr "text")
       /\ default (VStr "") (Val.dict_get fields "text") = VStr t.

(** A part the normalizer has no rule for: not a string, and not an object
    of type text, tool_use or tool_result. *)
Definition unshown (item : value) : Prop :=
  match item with
  | VStr _ => False
  | VDict fields =>
      let type := default VNone (Val.dict_get fields "type") in
      Val.eq_str type "text" = false
      /\ Val.eq_str type "tool_use" = false
      /\ Val.eq_str type "tool_result" = false
  | _ => True
  end.

(** [item] is a tool invocation under the name [name]; one without a name
    goes under [Unknown] in the list of tools. *)
Definition tool_use (item name : value) : Prop :=
  exists fields,
    item = VDict fields
    /\ Val.dict_get fields "type" = Some (VStr "tool_use")
    /\ name = default (VStr "Unknown") (Val.dict_get fields "name").

Section Tools.
Context `{Runtime}.

(** [line] decodes to an entry whose message holds the list [items] as its
    content. *)
Definition parts_of (line : string) (items : list value) : Prop :=
  exists entry message,
    json_loads line = Some (VDict entry)
    /\ Val.dict_get entry "message" = Some (VDict message)
    /\ Val.dict_get message "content" = Some (VList items).

(** Some line of the log invokes a tool under [name]. *)
Definition invoked (lines : list string) (name : value) : Prop :=
  exists line items item,
    line ∈ lines /\ parts_of line items /\ item ∈ items
    /\ tool_use item name.

(** The results the loop of [main] meets, file by file. *)
Fixpoint outcomes (clock : nat -> nat -> datetime) (i : nat)
    (device_name platform_name : string) (jsonl_files : list (string * string))
    (fs : gmap path string) : list Convert.outcome :=
  match jsonl_files with
  | [] => []
  | (parent_dir, log) :: rest =>
      let r :=
        Convert.convert_conversation (clock i) device_name platform_name
          parent_dir log fs in
      r.1 :: outcomes clock (S i) device_name platform_name rest r.2
  end.

End Tools.

(** The kinds of result of one conversion. *)
Definition is_action (a : Convert.action) (o : Convert.outcome) : bool :=
  match o, a with
  | Convert.Converted _ Convert.Created, Convert.Created => true
  | Convert.Converted _ Convert.Updated, Convert.Updated => true
  | _, _ => false
  end.

Definition is_empty (o : Convert.outcome) : bool :=
  match o with
  | Convert.NoLines => true
  | _ => false
  end.

Definition is_error (o : Convert.outcome) : bool :=
  match o with
  | Convert.Failed _ => true
  | _ => false
  end.

(** A string that [pathlib] keeps as one component when it is joined to a
    path: not empty, not [.] or [..], and without a separator or a drive
    colon. *)
Definition segment (s : string) : Prop :=
  s <> "" /\ s <> "." /\ s <> ".."
  /\ Py.contains "/" s = false /\ Py.contains "\" s = false
  /\ Py.contains ":" s = false.

(** The layout the consolidator writes:
    [Devices/DeviceName/xx/session_id.md]. *)
Definition migrated (p : path) : Prop :=
  exists device folder name,
    p = Migrate.old_devices_dir ++ [device; folder; name].

End Spec.

(** ** Concrete logs *)

Module Example.

(** JSON text written with single quotes for the double ones. *)
Definition json (s : string) : string :=
  Py.replace_char "'" (String Val.dquote "") s.

Definition log_of (lines : list string) : string :=
  String.concat "" (map (fun line => json line +:+ Py.nl) lines).

Definition clock (n : nat) : datetime :=
  mk_datetime 2025 1 2 3 4 (Z.of_nat n) 0 None.

(** A session whose last entry is stamped five minutes before its first. *)
Definition backwards_log : string :=
  log_of
    [ "{'type':'user','sessionId':'abc123','timestamp':'2024-05-01T10:05:00Z','message':{'role':'user','content':'hello'}}";
      "{'type':'assistant','sessionId':'abc123','timestamp':'2024-05-01T10:00:00Z','message':{'role':'assistant','content':'hi'}}" ].

(** One user entry without a session identifier, in the directory of the
    project [/home/josh/app]. *)
Definition bug_log : string :=
  log_of
    [ "{'type':'user','sessionId':'unknown','timestamp':'2024-05-01T10:00:00Z','message':{'role':'user','content':'Fix the bug in main.py'}}" ].

(** A log whose first line was cut short, and one whose last line was. *)
Definition broken_first_log : string :=
  "{'type':'user','mess" +:+ Py.nl +:+ bug_log.

Definition broken_last_log : string :=
  bug_log +:+ "{'type':'assistant','mess" +:+ Py.nl.

(** A log of one summary entry: no session identifier, no user message,
    no timestamp. *)
Definition summary_line : string :=
  json "{'type':'summary','summary':'Refactor the parser','leafUuid':'0f3a'}".

Definition summary_log : string := summary_line +:+ Py.nl.

(** The clock of a run one day later. *)
Definition later (n : nat) : datetime :=
  mk_datetime 2025 1 3 3 4 (Z.of_nat n) 0 None.

(** A session whose model name holds a line break. *)
Definition injected_log : string :=
  log_of
    [ "{'type':'user','sessionId':'abc123','timestamp':'2024-05-01T10:00:00Z','model':'m\nfirst_seen: 1999-01-01','message':{'role':'user','content':'hello'}}" ].

(** Two runs over the log of one summary entry, the second a day later,
    and two runs over the log with the line break, by the same clock. *)
Definition convert (clock : nat -> datetime) (log : string)
    (fs : gmap path string) : Convert.outcome * gmap path string :=
  Convert.convert_conversation clock "host" "Linux" "-home-josh-app" log fs.

Definition summary_out : path :=
  ["Devices"; "host"; "unknown"; "unknown_cb1a20d846d8.md"].
Definition summary_first : gmap path string := (convert clock summary_log ∅).2.
Definition summary_second : gmap path string :=
  (convert later summary_log summary_first).2.

Definition injected_out : path := ["Devices"; "host"; "ab"; "abc123.md"].
Definition injected_first : gmap path string :=
  (convert clock injected_log ∅).2.
Definition injected_second : gmap path string :=
  (convert clock injected_log injected_first).2.

(** A session with a summary entry between its two messages: the summary
    has no timestamp and is not shown. *)
Definition mixed_log : string :=
  log_of
    [ "{'type':'user','sessionId':'abc123','timestamp':'2024-05-01T10:00:00Z','message':{'role':'user','content':'hello'}}";
      "{'type':'summary','summary':'Greeting','leafUuid':'0f3a'}";
      "{'type':'assistant','sessionId':'abc123','timestamp':'2024-05-01T10:07:00Z','message':{'role':'assistant','content':'hi'}}" ].

(** The session abc123 as a later log has it: its first entry is stamped a
    month after the first entry of [backwards_log]. *)
Definition regrown_log : string :=
  log_of
    [ "{'type':'user','sessionId':'abc123','timestamp':'2024-06-01T08:00:00Z','message':{'role':'user','content':'hello again'}}" ].

(** A log without a session identifier and without a user entry: a
    summary, a line cut short, an entry of a type that is not shown and
    whose message is a number, and a summary. *)
Definition ragged_log : string :=
  log_of
    [ "{'type':'summary','summary':'Refactor the parser','leafUuid':'0f3a'}";
      "{'type':'user','mess";
      "{'type':'progress','message':5}";
      "{'type':'summary','summary':'Done','leafUuid':'0f3b'}" ].

(** A log whose first entry has the null session identifier. *)
Definition null_id_log : string :=
  log_of
    [ "{'type':'summary','sessionId':null,'summary':'Refactor the parser'}" ].

(** A tree that already holds an artifact of the session abc123, first
    seen the day before. *)
Definition prior_tree : gmap path string :=
  {[ ["Devices"; "host"; "ab"; "abc123.md"]
     := Py.join Py.nl
          ["---"; "first_seen: 2024-04-30T09:00:00Z";
           "last_updated: 2024-04-30T09:30:00Z"; "---"; ""; "# Earlier"] ]}.

End Example.


(** ** Concrete artifact trees *)

Module Tree.

Definition artifact (session_id message_count body : string) : string :=
  Py.join Py.nl
    ["---"; "session_id: " +:+ session_id;
     "message_count: " +:+ message_count; "---"; body].

Definition legacy (device year month day name : string) : path :=
  Migrate.old_devices_dir ++ [device; year; month; day; name].

Definition a_md : path := legacy "DevA" "2024" "05" "01" "a.md".
Definition b_md : path := legacy "DevA" "2024" "05" "02" "b.md".
Definition c_md : path := legacy "DevA" "2024" "05" "02" "c.md".

(** Two artifacts of the session abc123, with 4 and 9 messages, and one
    artifact of another session. *)
Definition duplicates : gmap path string :=
  {[ a_md := artifact "abc123" "4" "four";
     b_md := artifact "abc123" "9" "nine";
     c_md := artifact "zzz" "2" "solo" ]}.

(** The same tree with no positive count in the group of abc123. *)
Definition uncounted : gmap path string :=
  {[ a_md := artifact "abc123" "0" "four";
     b_md := artifact "abc123" "many" "nine";
     c_md := artifact "zzz" "2" "solo" ]}.

(** The tree of one artifact, for a run that listed [a_md] too: the file
    has vanished since. *)
Definition vanished : gmap path string :=
  {[ c_md := artifact "zzz" "2" "solo" ]}.

(** The artifact of the session abc123 that the converter wrote on DevA,
    with 7 messages, beside a legacy artifact of the session with 9. *)
Definition v3_md : path :=
  Migrate.old_devices_dir ++ ["DevA"; "ab"; "abc123.md"].

Definition overlapping : gmap path string :=
  {[ v3_md := artifact "abc123" "7" "seven";
     b_md := artifact "abc123" "9" "nine" ]}.

(** One legacy artifact, and what an earlier run left where the backup of
    that artifact goes. *)
Definition rerun : gmap path string :=
  {[ a_md := artifact "abc123" "4" "four";
     Spec.backup_path a_md := artifact "abc123" "3" "three" ]}.

Definition start (fs : gmap path string) : Migrate.state :=
  Migrate.mk_state fs 0 0.

End Tree.

(** * Properties *)

(** ** Content Normalizer *)

Lemma len_take_le (n : nat) (s : string) :
  (n <= Py.len s)%nat -> Py.len (Py.take n s) = n.
Proof.
  revert s; induction n as [|n IH]; intros [|c s] Hle; simpl in *;
    try lia; try reflexivity.
  rewrite IH; [reflexivity | lia].
Qed.

Lemma render_tool_result_eq (fields : list (string * value)) :
  Convert.render_tool_result (VDict fields) =
  Ok [VStr (Convert.nl +:+ "**[Result]**");
      VStr (Convert.fence ""
              (if (1000 <? Py.len (Spec.result_text fields))%nat
               then Py.take 1000 (Spec.result_text fields) +:+ Convert.truncated
               else Spec.result_text fields))].
Proof.
  unfold Convert.render_tool_result, Spec.result_text. simpl.
  destruct (default (VStr "") (Val.dict_get fields "content")) as
    [| b | z | f | s | [|first rest] | kvs]; simpl; try reflexivity;
    try (destruct first as [| b | z | f | s | l | kvs]; simpl);
    try reflexivity;
    match goal with |- context [(1000 <? ?n)%nat] =>
      destruct (1000 <? n)%nat; reflexivity end.
Qed.

(** C8. A tool-result part renders as the result header followed by a fenced
    block. The body of the block is the result text cut to its first 1000
    characters with the truncation marker appended exactly when the text is
    longer than 1000 characters: a text of 1500 characters gives its first
    1000 characters and the marker, a text of 999 characters is left as it
    is. The result text of a non-empty list is the text of its first
    element. *)
Theorem tool_result_truncation (fields : list (string * value)) :
  Val.dict_get fields "type" = Some (VStr "tool_result") ->
  let text := Spec.result_text fields in
  exists body : string,
    Convert.render_item (VDict fields)
    = Ok [VStr (Py.nl +:+ "**[Result]**");
          VStr ("```" +:+ Py.nl +:+ body +:+ Py.nl +:+ "```")]
    /\ Convert.extract_content (VDict [("content", VList [VDict fields])])
       = Ok (Py.nl +:+ "**[Result]**" +:+ Py.nl
             +:+ "```" +:+ Py.nl +:+ body +:+ Py.nl +:+ "```")
    /\ ((Py.len text <= 1000)%nat -> body = text)
    /\ ((1000 < Py.len text)%nat ->
        body = Py.take 1000 text +:+ "..." +:+ Py.nl +:+ "[truncated]")
    /\ (Py.len text = 1500%nat ->
        body = Py.take 1000 text +:+ "..." +:+ Py.nl +:+ "[truncated]"
        /\ Py.len (Py.take 1000 text) = 1000%nat)
    /\ (Py.len text = 999%nat -> body = text).
Proof.
  intros Htype text.
  assert (Hitem : Convert.render_item (VDict fields)
                  = Convert.render_tool_result (VDict fields)).
  { unfold Convert.render_item. rewrite Htype. reflexivity. }
  pose proof (render_tool_result_eq fields) as Hres. fold text in Hres.
  exists (if (1000 <? Py.len text)%nat
          then Py.take 1000 text +:+ Convert.truncated else text).
  split; [rewrite Hitem; exact Hres|].
  split.
  { unfold Convert.extract_content, Convert.render_items.
    cbn -[Convert.render_item Convert.fence].
    rewrite Hitem, Hres. reflexivity. }
  repeat split.
  - intros Hle. destruct (Nat.ltb_spec 1000 (Py.len text)); [lia | reflexivity].
  - intros Hlt. destruct (Nat.ltb_spec 1000 (Py.len text)); [reflexivity | lia].
  - destruct (Nat.ltb_spec 1000 (Py.len text)); [reflexivity | lia].
  - apply len_take_le. lia.
  - intros Heq. destruct (Nat.ltb_spec 1000 (Py.len text)); [lia | reflexivity].
Qed.

Lemma tool_result_truncation_witness :
  exists body : string,
    Convert.render_item
      (VDict [("type", VStr "tool_result");
              ("content", VList [VDict [("type", VStr "text");
                                        ("text", VStr "done")];
                                 VStr "ignored"])])
    = Ok [VStr (Py.nl +:+ "**[Result]**");
          VStr ("```" +:+ Py.nl +:+ body +:+ Py.nl +:+ "```")]
    /\ body = "done".
Proof.
  destruct (tool_result_truncation
              [("type", VStr "tool_result");
               ("content", VList [VDict [("type", VStr "text");
                                         ("text", VStr "done")];
                                  VStr "ignored"])] eq_refl)
    as (body & Hitem & _ & Hshort & _).
  exists body. split; [exact Hitem|]. apply Hshort. vm_compute. lia.
Defined.

(** ** Reading a conversion backwards *)

Lemma bind_ok {A B} (m : result A) (k : A -> result B) (b : B) :
  m ≫= k = Ok b -> exists a, m = Ok a /\ k a = Ok b.
Proof. destruct m as [a|e]; [eauto | discriminate]. Qed.

Lemma Ok_inj {A} (a b : A) : Ok a = Ok b -> a = b.
Proof. intros Heq. injection Heq as ->. reflexivity. Qed.

Tactic Notation "bind_inv" hyp(H) "as" ident(x) ident(Hx) :=
  apply bind_ok in H; destruct H as (x & Hx & H).

Section BuildFacts.
Context `{Runtime}.

Lemma get_session_file_path_str (session_id : value) (device_name : string)
    (p : path) :
  Convert.get_session_file_path session_id device_name = Ok p ->
  exists s, session_id = VStr s.
Proof. destruct session_id; try discriminate; eauto. Qed.

(** What a successful run of the [try] block has computed. *)
Lemma build_inv clock device_name platform_name parent_dir lines fs a :
  Convert.build clock device_name platform_name parent_dir lines fs = Ok a ->
  exists first_entry last_entry first_timestamp last_timestamp,
    Convert.loads (hd "" lines) = Ok first_entry
    /\ Convert.loads (List.last lines "") = Ok last_entry
    /\ Convert.resolve_session_id first_entry parent_dir lines
       = Ok (VStr (Convert.session_id a))
    /\ Convert.get_session_file_path (VStr (Convert.session_id a)) device_name
       = Ok (Convert.output_file a)
    /\ Val.get first_entry "timestamp" (VStr "") = Ok first_timestamp
    /\ Val.get last_entry "timestamp" (VStr "") = Ok last_timestamp
    /\ Convert.first_seen a
       = Convert.preserved_first_seen
           (Convert.read_existing_metadata fs (Convert.output_file a))
           (Val.str first_timestamp)
    /\ Convert.md_content a !! 5%nat
       = Some ("first_seen: " +:+ Convert.first_seen a)
    /\ Convert.md_content a !! 15%nat
       = Some ("duration_minutes: "
               +:+ Py.of_Z (Convert.duration_minutes_between
                     (Convert.format_timestamp (clock 0%nat) first_timestamp).2
                     (Convert.format_timestamp (clock 1%nat) last_timestamp).2)).
Proof.
  intros Hb. unfold Convert.build in Hb.
  bind_inv Hb as first_entry Hfirst. bind_inv Hb as last_entry Hlast.
  bind_inv Hb as session Hsession. bind_inv Hb as out Hout.
  destruct (get_session_file_path_str _ _ _ Hout) as [sid ->].
  cbn zeta in Hb.
  bind_inv Hb as cwd Hcwd. bind_inv Hb as first_timestamp Hts1.
  bind_inv Hb as last_timestamp Hts2. bind_inv Hb as project_name Hname.
  bind_inv Hb as tools Htools. bind_inv Hb as user_type Huser.
  bind_inv Hb as model Hmodel. bind_inv Hb as body Hbody.
  apply Ok_inj in Hb. subst a. cbn [Convert.session_id Convert.output_file
    Convert.first_seen Convert.md_content Val.str].
  exists first_entry, last_entry, first_timestamp, last_timestamp.
  repeat split; try assumption; reflexivity.
Qed.

(** The artifact of a successful run of the [try] block, line by line. *)
Lemma build_shape clock device_name platform_name parent_dir lines fs a :
  Convert.build clock device_name platform_name parent_dir lines fs = Ok a ->
  exists first_entry last_entry first_timestamp last_timestamp user_type model
         project_path project_name tools body,
    Convert.loads (hd "" lines) = Ok first_entry
    /\ Convert.loads (List.last lines "") = Ok last_entry
    /\ Val.get first_entry "timestamp" (VStr "") = Ok first_timestamp
    /\ Val.get last_entry "timestamp" (VStr "") = Ok last_timestamp
    /\ Convert.extract_tools_used lines = Ok tools
    /\ Convert.render_lines clock 0 lines = Ok body
    /\ let first := Convert.format_timestamp (clock 0%nat) first_timestamp in
       let last := Convert.format_timestamp (clock 1%nat) last_timestamp in
       let duration := Convert.duration_minutes_between first.2 last.2 in
       let has_errors := existsb Convert.has_error_word lines in
       let title :=
         Convert.find_title lines
           ("Session " +:+ Py.take 8 (Convert.session_id a)) in
       let count := Py.of_Z (Z.of_nat (length lines)) in
       Convert.md_content a
       = Convert.front_matter device_name platform_name user_type
           (Convert.first_seen a) (Val.str last_timestamp) first.1.2
           (Convert.session_id a) project_path project_name title count
           (Convert.json_dumps (VList tools))
           (Convert.json_dumps
              (VList (map VStr
                        (Convert.generate_tags
                           (String.concat "" (map Convert.line_content lines))
                           project_path))))
           (Py.of_Z duration) model
           (if has_errors then "completed_with_errors"
            else if (duration <? 5)%Z then "active" else "completed")
           (Convert.bool_lower has_errors)
         ++ Convert.title_block device_name platform_name first.1.2 first.1.1
              last.1.2 last.1.1 (Convert.session_id a) project_path title
              count (Py.of_Z duration)
         ++ body.
Proof.
  intros Hb. unfold Convert.build in Hb.
  bind_inv Hb as first_entry Hfirst. bind_inv Hb as last_entry Hlast.
  bind_inv Hb as session Hsession. bind_inv Hb as out Hout.
  destruct (get_session_file_path_str _ _ _ Hout) as [sid ->].
  cbn zeta in Hb.
  bind_inv Hb as cwd Hcwd. bind_inv Hb as first_timestamp Hts1.
  bind_inv Hb as last_timestamp Hts2. bind_inv Hb as project_name Hname.
  bind_inv Hb as tools Htools. bind_inv Hb as user_type Huser.
  bind_inv Hb as model Hmodel. bind_inv Hb as body Hbody.
  apply Ok_inj in Hb. subst a.
  cbn [Convert.session_id Convert.output_file Convert.first_seen
       Convert.md_content Val.str].
  exists first_entry, last_entry, first_timestamp, last_timestamp.
  eexists _, _, _, _, tools, body.
  do 6 (split; [assumption|]). cbn zeta.
  destruct (existsb Convert.has_error_word lines); reflexivity.
Qed.

End BuildFacts.

(** ** The arithmetic of the duration *)

Section FloatArithmetic.
Import Convert.
Local Open Scope Z_scope.

Lemma round_half_even_error (n d : Z) :
  0 < d ->
  - d <= 2 * (round_half_even n d * d - n) <= d.
Proof.
  intros Hd. unfold round_half_even.
  pose proof (Z.div_mod n d ltac:(lia)) as Hn.
  pose proof (Z.mod_pos_bound n d Hd) as Hr.
  destruct (2 * (n mod d) <? d) eqn:H1; [apply Z.ltb_lt in H1; nia|].
  apply Z.ltb_ge in H1.
  destruct (d <? 2 * (n mod d)) eqn:H2; [apply Z.ltb_lt in H2; nia|].
  apply Z.ltb_ge in H2. destruct (Z.even (n / d)); nia.
Qed.

Lemma round_half_even_ge (z n d : Z) :
  0 < d -> z * d <= n -> z <= round_half_even n d.
Proof.
  intros Hd Hz.
  assert (z <= n / d) by (apply Z.div_le_lower_bound; lia).
  unfold round_half_even.
  destruct (2 * (n mod d) <? d); [lia|].
  destruct (d <? 2 * (n mod d)); [lia|].
  destruct (Z.even (n / d)); lia.
Qed.

Lemma round_half_even_lt (z n d : Z) :
  0 < d -> 2 * n + d < 2 * z * d -> round_half_even n d < z.
Proof.
  intros Hd Hz. pose proof (round_half_even_error n d Hd). nia.
Qed.

Lemma scaled_fst (n d e : Z) : (scaled n d e).1 = n * 2 ^ Z.max 0 (- e).
Proof. reflexivity. Qed.

Lemma scaled_snd (n d e : Z) : (scaled n d e).2 = d * 2 ^ Z.max 0 e.
Proof. reflexivity. Qed.

(** The significand of the double nearest to a positive fraction is the
    rounded quotient of a fraction that is at least [2 ^ 52]. *)
Lemma nearest_double_positive (n d : Z) :
  0 < n -> 0 < d ->
  exists e,
    nearest_double n d
    = (round_half_even (n * 2 ^ Z.max 0 (- e)) (d * 2 ^ Z.max 0 e), e)
    /\ 2 ^ 52 * (d * 2 ^ Z.max 0 e) <= n * 2 ^ Z.max 0 (- e).
Proof.
  intros Hn Hd. unfold nearest_double.
  destruct (Z.eqb_spec n 0) as [|_]; [lia|].
  rewrite (Z.abs_eq n), (Z.sgn_pos n) by lia. cbn zeta.
  rewrite !scaled_fst, !scaled_snd.
  set (e0 := Z.log2 n - Z.log2 d - 53).
  assert (Hlow : 2 ^ 52 * (d * 2 ^ Z.max 0 e0) < n * 2 ^ Z.max 0 (- e0)).
  { destruct (Z.log2_spec n Hn) as [Hn1 _].
    destruct (Z.log2_spec d Hd) as [_ Hd2].
    pose proof (Z.log2_nonneg n). pose proof (Z.log2_nonneg d).
    assert (Hpow : 2 ^ 52 * (2 ^ Z.succ (Z.log2 d) * 2 ^ Z.max 0 e0)
                   = 2 ^ Z.log2 n * 2 ^ Z.max 0 (- e0)).
    { rewrite <- !Z.pow_add_r by lia. f_equal. unfold e0. lia. }
    assert (0 < 2 ^ Z.max 0 e0) by (apply Z.pow_pos_nonneg; lia).
    assert (0 < 2 ^ Z.max 0 (- e0)) by (apply Z.pow_pos_nonneg; lia).
    nia. }
  destruct (_ <? 2 ^ 53) eqn:Hnorm.
  - exists e0. split; [rewrite Z.mul_1_l; reflexivity | lia].
  - exists (e0 + 1). split; [rewrite Z.mul_1_l; reflexivity|].
    apply Z.ltb_ge in Hnorm.
    assert (0 < d * 2 ^ Z.max 0 e0)
      by (apply Z.mul_pos_pos; [lia | apply Z.pow_pos_nonneg; lia]).
    assert (Hq : 2 ^ 53 * (d * 2 ^ Z.max 0 e0) <= n * 2 ^ Z.max 0 (- e0)).
    { pose proof (Z.mul_div_le (n * 2 ^ Z.max 0 (- e0))
                    (d * 2 ^ Z.max 0 e0) ltac:(lia)). nia. }
    assert (Hshift : 2 ^ Z.max 0 (- (e0 + 1)) * (2 * 2 ^ Z.max 0 e0)
                     = 2 ^ Z.max 0 (- e0) * 2 ^ Z.max 0 (e0 + 1)).
    { change 2 with (2 ^ 1) at 2. rewrite <- !Z.pow_add_r by lia.
      f_equal. lia. }
    assert (0 < 2 ^ Z.max 0 e0) by (apply Z.pow_pos_nonneg; lia).
    assert (0 < 2 ^ Z.max 0 (e0 + 1)) by (apply Z.pow_pos_nonneg; lia).
    assert (0 < 2 ^ Z.max 0 (- e0)) by (apply Z.pow_pos_nonneg; lia).
    assert (0 < 2 ^ Z.max 0 (- (e0 + 1))) by (apply Z.pow_pos_nonneg; lia).
    change (2 ^ 53) with (2 * 2 ^ 52) in Hq.
    apply Z.mul_le_mono_pos_r with (p := 2 * 2 ^ Z.max 0 e0); [lia|].
    nia.
Qed.

Lemma nearest_double_opp (n d : Z) :
  nearest_double (- n) d
  = (- (nearest_double n d).1, (nearest_double n d).2).
Proof.
  unfold nearest_double.
  destruct (Z.eqb_spec n 0) as [->|Hn]; [reflexivity|].
  destruct (Z.eqb_spec (- n) 0) as [|_]; [lia|].
  rewrite Z.abs_opp, Z.sgn_opp. cbn zeta. cbn [fst snd].
  f_equal. lia.
Qed.

Lemma power_above (b e : Z) : 0 <= b -> 0 <= e -> 2 ^ b < 2 ^ e -> 2 ^ (b + 1) <= 2 ^ e.
Proof.
  intros Hb He Hlt. apply Z.pow_le_mono_r; [lia|].
  destruct (Z.le_gt_cases e b) as [Hle|]; [|lia].
  apply (Z.pow_le_mono_r 2) in Hle; lia.
Qed.

(** Under 2 ^ 32 seconds the two float divisions lose nothing that the
    truncation keeps. *)
Lemma minutes_exact_positive (us : Z) :
  0 < us < 2 ^ 32 * 1000000 ->
  int_of_float (float_div (total_seconds us) 60) = us / 60000000.
Proof.
  intros Hus. unfold total_seconds.
  destruct (nearest_double_positive us 1000000) as (e & -> & Hlow); [lia..|].
  assert (He : e < 0).
  { destruct (Z.le_gt_cases 0 e) as [He|]; [|lia]. exfalso.
    rewrite (Z.max_l 0 (- e)), (Z.max_r 0 e) in Hlow by lia.
    pose proof (Z.pow_pos_nonneg 2 e ltac:(lia) He).
    change (2 ^ 0) with 1 in Hlow. nia. }
  rewrite (Z.max_r 0 (- e)), (Z.max_l 0 e) in * by lia.
  change (2 ^ 0) with 1 in *. rewrite Z.mul_1_r in *.
  set (p := 2 ^ (- e)) in *.
  assert (Hp : 2 ^ 21 <= p).
  { apply (power_above 20); [lia | lia |]. fold p.
    assert (2 ^ 52 * 1000000 < 2 ^ 32 * 1000000 * p) by nia. nia. }
  set (mt := round_half_even (us * p) 1000000).
  pose proof (round_half_even_error (us * p) 1000000 ltac:(lia)) as Herr.
  fold mt in Herr.
  assert (Hmt : 2 ^ 52 <= mt)
    by (apply round_half_even_ge; lia).
  unfold float_div. cbn [fst snd]. rewrite scaled_fst, scaled_snd.
  rewrite Z.opp_involutive, (Z.max_l 0 e), (Z.max_r 0 (- e)) by lia.
  change (2 ^ 0) with 1. rewrite Z.mul_1_r. fold p.
  destruct (nearest_double_positive mt (60 * p)) as (e' & -> & Hlow');
    [lia | lia |].
  assert (Hmt' : mt <= 2 ^ 32 * p) by nia.
  assert (He' : e' < 0).
  { destruct (Z.le_gt_cases 0 e') as [He'|]; [|lia]. exfalso.
    rewrite (Z.max_l 0 (- e')), (Z.max_r 0 e') in Hlow' by lia.
    pose proof (Z.pow_pos_nonneg 2 e' ltac:(lia) He').
    change (2 ^ 0) with 1 in Hlow'. nia. }
  rewrite (Z.max_r 0 (- e')), (Z.max_l 0 e') in * by lia.
  change (2 ^ 0) with 1 in *. rewrite Z.mul_1_r in *.
  set (p' := 2 ^ (- e')) in *.
  assert (Hp' : 2 ^ 26 <= p').
  { apply (power_above 25); [lia | lia |]. fold p'.
    assert (2 ^ 52 * 60 * p <= 2 ^ 32 * p * p') by nia.
    assert (2 ^ 20 * 60 <= p') by nia. lia. }
  set (mq := round_half_even (mt * p') (60 * p)).
  unfold int_of_float. cbn [fst snd].
  rewrite (Z.max_l 0 e'), (Z.max_r 0 (- e')) by lia.
  change (2 ^ 0) with 1. rewrite Z.mul_1_r. fold p'.
  set (k := us / 60000000).
  assert (Hk : 60000000 * k <= us < 60000000 * (k + 1)).
  { pose proof (Z.div_mod us 60000000 ltac:(lia)).
    pose proof (Z.mod_pos_bound us 60000000 ltac:(lia)). unfold k. lia. }
  assert (Hk0 : 0 <= k) by (apply Z.div_pos; lia).
  assert (Hlower : k * p' <= mq).
  { apply round_half_even_ge; [lia|].
    assert (60 * k * p <= mt) by (apply round_half_even_ge; nia). nia. }
  assert (Hupper : mq < (k + 1) * p').
  { apply round_half_even_lt; [lia|].
    assert (Hmt1 : 1000000 * mt <= (60000000 * (k + 1) - 1) * p + 500000)
      by nia.
    assert (Hmargin : 500000 * p' + 30000000 * p < p * p') by nia.
    nia. }
  rewrite Z.quot_div_nonneg by lia.
  symmetry. apply Z.div_unique with (r := mq - k * p'); lia.
Qed.

(** [int((last - first).total_seconds() / 60)] is the quotient of the span
    by a minute, rounded toward zero, for every span below 2 ^ 32 seconds,
    which is some 136 years. *)
Lemma minutes_exact (us : Z) :
  Z.abs us < 2 ^ 32 * 1000000 ->
  int_of_float (float_div (total_seconds us) 60) = Z.quot us 60000000.
Proof.
  intros Hus.
  destruct (Z.lt_trichotomy us 0) as [Hneg|[->|Hpos]]; [|reflexivity|].
  - replace us with (- - us) at 1 by lia. unfold total_seconds, float_div.
    rewrite nearest_double_opp. cbn [fst snd].
    rewrite !scaled_fst, !scaled_snd, Z.mul_opp_l, nearest_double_opp.
    pose proof (minutes_exact_positive (- us) ltac:(lia)) as Hpos.
    unfold total_seconds, float_div, int_of_float in Hpos |- *.
    rewrite !scaled_fst, !scaled_snd in Hpos. cbn [fst snd] in *.
    rewrite Z.mul_opp_l, Z.quot_opp_l, Hpos by lia.
    rewrite <- (Z.quot_div_nonneg (- us)) by lia.
    rewrite Z.quot_opp_l by lia. lia.
  - rewrite minutes_exact_positive by lia.
    symmetry. apply Z.quot_div_nonneg; lia.
Qed.

End FloatArithmetic.

(** ** Metadata Aggregator: the duration *)


Section Duration.
Context `{Runtime}.


End Duration.


(** ** Session Identity Resolver *)

(** On the log of one user entry in the directory [-home-josh-app], the
    program keys the session by the digest of the directory name as it is
    and of [str] of the message object; the design document's key, over the
    decoded path and the normalized content, is another. *)
Lemma resolver_counterexample :
  let lines := Convert.read_lines Example.bug_log in
  (Convert.convert_conversation Example.clock "host" "Linux" "-home-josh-app"
     Example.bug_log ∅).1
  = Convert.Converted "unknown_971699016408" Convert.Created
  /\ Convert.unknown_session_id "-home-josh-app" lines = "unknown_971699016408"
  /\ Spec.session_key "-home-josh-app" lines = "unknown_d9747fc4ea0a"
  /\ Convert.first_user_snippet (take 10 lines)
     = "{'role': 'user', 'content': 'Fix the bug in main.py'}"
  /\ Spec.first_normalized_snippet (take 10 lines) = "Fix the bug in main.py"
  /\ Convert.unknown_session_id "-home-josh-app" lines
     <> Spec.session_key "-home-josh-app" lines.
Proof. vm_compute. repeat split; discriminate. Qed.

Section Resolver.
Context `{Runtime}.

Lemma user_snippet_found line s :
  Convert.user_snippet line = Ok (Some s) ->
  exists message, Spec.user_entry line message
                  /\ s = Py.take 100 (Val.str message).
Proof.
  unfold Convert.user_snippet, Convert.loads. intros Hs.
  destruct (json_loads line) as [entry|] eqn:Hl; [|discriminate].
  destruct entry as [| | | | | |fields]; try discriminate.
  cbn in Hs.
  destruct (default VNone (Val.dict_get fields "type")) as [| | | |t| |] eqn:Ht;
    try discriminate.
  cbn in Hs. destruct (String.eqb_spec t "user") as [->|]; [|discriminate].
  apply Ok_inj in Hs. injection Hs as <-.
  exists (default (VStr "") (Val.dict_get fields "message")).
  split; [|reflexivity].
  exists fields. repeat split; try assumption.
  destruct (Val.dict_get fields "type"); [cbn in Ht; congruence | discriminate].
Qed.

Lemma user_entry_snippet line message :
  Spec.user_entry line message ->
  Convert.user_snippet line = Ok (Some (Py.take 100 (Val.str message))).
Proof.
  intros (fields & Hl & Ht & ->).
  unfold Convert.user_snippet, Convert.loads. rewrite Hl. cbn.
  rewrite Ht. reflexivity.
Qed.

Lemma user_entry_unique line m m' :
  Spec.user_entry line m -> Spec.user_entry line m' -> m = m'.
Proof.
  intros (f & Hl & _ & ->) (f' & Hl' & _ & ->). congruence.
Qed.

Lemma scan_cons n line rest s :
  (forall m, ~ Spec.user_entry line m) ->
  Spec.scan n rest s -> Spec.scan (S n) (line :: rest) s.
Proof.
  intros Hnot [i l m Hi Hl Hu Hbefore | Hnone].
  - apply (Spec.scan_found _ _ (S i) l m); [lia | exact Hl | exact Hu |].
    intros [|j] l' m' Hj Hl'.
    + injection Hl' as <-. apply Hnot.
    + apply (Hbefore j); [lia | exact Hl'].
  - apply Spec.scan_none. intros [|j] l' m' Hj Hl'.
    + injection Hl' as <-. apply Hnot.
    + apply (Hnone j); [lia | exact Hl'].
Qed.

(** The loop over [lines[:10]] finds what the scan describes. *)
Lemma first_user_snippet_scan n lines :
  Spec.scan n lines (Convert.first_user_snippet (take n lines)).
Proof.
  revert lines; induction n as [|n IH]; intros lines.
  - apply Spec.scan_none. intros; lia.
  - destruct lines as [|line rest].
    + apply Spec.scan_none. intros j l m _ Hl. discriminate.
    + cbn [take Convert.first_user_snippet].
      destruct (Convert.user_snippet line) as [[s|]|e] eqn:Hs.
      * destruct (user_snippet_found _ _ Hs) as (m & Hm & ->).
        apply (Spec.scan_found _ _ 0%nat line m); [lia | reflexivity | exact Hm |].
        intros; lia.
      * apply scan_cons; [|apply IH].
        intros m Hm. rewrite (user_entry_snippet _ _ Hm) in Hs. discriminate.
      * apply scan_cons; [|apply IH].
        intros m Hm. rewrite (user_entry_snippet _ _ Hm) in Hs. discriminate.
Qed.

Lemma scan_unique n lines s s' :
  Spec.scan n lines s -> Spec.scan n lines s' -> s = s'.
Proof.
  intros [i l m Hi Hl Hu Hbefore | Hnone] [i' l' m' Hi' Hl' Hu' Hbefore' | Hnone'].
  - destruct (Nat.lt_trichotomy i i') as [Hlt|[->|Hlt]].
    + destruct (Hbefore' i l m Hlt Hl Hu).
    + assert (l = l') as <- by congruence.
      rewrite (user_entry_unique _ _ _ Hu Hu'). reflexivity.
    + destruct (Hbefore i' l' m' Hlt Hl' Hu').
  - destruct (Hnone' i l m Hi Hl Hu).
  - destruct (Hnone i' l' m' Hi' Hl' Hu').
  - reflexivity.
Qed.

Lemma convert_build clock device_name platform_name parent_dir log fs sid act
    fs' :
  Convert.convert_conversation clock device_name platform_name parent_dir log
    fs = (Convert.Converted sid act, fs') ->
  exists a,
    Convert.build clock device_name platform_name parent_dir
      (Convert.read_lines log) fs = Ok a
    /\ sid = Convert.session_id a
    /\ fs' = <[Convert.output_file a := Py.join Py.nl (Convert.md_content a)]> fs.
Proof.
  unfold Convert.convert_conversation.
  destruct (Convert.read_lines log) as [|line rest]; [discriminate|].
  destruct (Convert.build _ _ _ _ _ _) as [a|e]; [|discriminate].
  intros Heq. injection Heq as <- _ <-. exists a. repeat split.
Qed.

(** C1, amended. When the first entry has no session identifier, or the
    literal unknown, the resolver scans at most the first ten lines for the
    first entry of type user and takes the first 100 characters of [str] of
    its message object, the empty string when it finds none; it joins the
    name of the project directory as it is, not decoded, and that snippet
    with a colon, and returns [unknown_] followed by the first 12 characters
    of the MD5 hex digest of the result. The key depends on the directory
    name and the snippet only: not on the clock, the device, the tree of
    artifacts or the rest of the log. *)
Theorem resolver_synthesized_key (fields : list (string * value))
    (parent_dir : string) (lines : list string) :
  Val.dict_get fields "sessionId" = None
  \/ Val.dict_get fields "sessionId" = Some (VStr "unknown") ->
  exists snippet,
    Spec.scan 10 lines snippet
    /\ (forall s, Spec.scan 10 lines s -> s = snippet)
    /\ let key :=
         "unknown_"
         +:+ Py.take 12 (md5_hexdigest (parent_dir +:+ ":" +:+ snippet)) in
       Convert.resolve_session_id (VDict fields) parent_dir lines
       = Ok (VStr key)
       /\ (forall fields' lines',
             Val.dict_get fields' "sessionId" = None
             \/ Val.dict_get fields' "sessionId" = Some (VStr "unknown") ->
             Spec.scan 10 lines' snippet ->
             Convert.resolve_session_id (VDict fields') parent_dir lines'
             = Ok (VStr key))
       /\ (forall clock device_name platform_name log fs sid act fs',
             Convert.read_lines log = lines ->
             json_loads (hd "" lines) = Some (VDict fields) ->
             Convert.convert_conversation clock device_name platform_name
               parent_dir log fs = (Convert.Converted sid act, fs') ->
             sid = key).
Proof.
  intros Hid.
  assert (Hresolve : forall fields' lines',
    Val.dict_get fields' "sessionId" = None
    \/ Val.dict_get fields' "sessionId" = Some (VStr "unknown") ->
    Convert.resolve_session_id (VDict fields') parent_dir lines'
    = Ok (VStr (Convert.unknown_session_id parent_dir lines'))).
  { intros fields' lines' [Hnone|Hunknown];
      unfold Convert.resolve_session_id; cbn; [rewrite Hnone | rewrite Hunknown];
      reflexivity. }
  exists (Convert.first_user_snippet (take 10 lines)).
  split; [apply first_user_snippet_scan|].
  split; [intros s Hs; exact (scan_unique _ _ _ _ Hs (first_user_snippet_scan _ _))|].
  cbv zeta. split; [exact (Hresolve fields lines Hid)|]. split.
  - intros fields' lines' Hid' Hscan. rewrite (Hresolve _ _ Hid').
    unfold Convert.unknown_session_id.
    rewrite (scan_unique _ _ _ _ (first_user_snippet_scan 10 lines') Hscan).
    reflexivity.
  - intros clock device_name platform_name log fs sid act fs' Hlines Hfirst Hc.
    destruct (convert_build _ _ _ _ _ _ _ _ _ Hc) as (a & Hb & -> & _).
    rewrite Hlines in Hb.
    destruct (build_inv _ _ _ _ _ _ _ Hb)
      as (first_entry & _ & _ & _ & Hl & _ & Hr & _).
    unfold Convert.loads in Hl. rewrite Hfirst in Hl.
    apply Ok_inj in Hl. subst first_entry.
    rewrite (Hresolve fields lines Hid) in Hr.
    apply Ok_inj in Hr. injection Hr as Hr. symmetry. exact Hr.
Qed.

End Resolver.

Lemma resolver_synthesized_key_witness :
  Convert.resolve_session_id
    (VDict [("type", VStr "user");
            ("message", VDict [("role", VStr "user");
                               ("content", VStr "Fix the bug in main.py")])])
    "-home-josh-app" (Convert.read_lines Example.bug_log)
  = Ok (VStr "unknown_971699016408").
Proof.
  destruct (resolver_synthesized_key
              [("type", VStr "user");
               ("message", VDict [("role", VStr "user");
                                  ("content", VStr "Fix the bug in main.py")])]
              "-home-josh-app" (Convert.read_lines Example.bug_log)
              (or_introl eq_refl))
    as (snippet & Hscan & Huniq & Hkey & _).
  rewrite Hkey.
  rewrite <- (Huniq _ (first_user_snippet_scan 10
                         (Convert.read_lines Example.bug_log))).
  vm_compute. reflexivity.
Defined.

(** ** Reconciler *)

Section Reconciler.
Context `{Runtime}.

(** C6, as the code has it. The first and the last line of the log are
    decoded outside the loops that skip a line that does not decode: when
    either fails to decode, the conversion of the whole log fails with
    [JSONDecodeError] and nothing is written. *)
Theorem malformed_first_or_last_line_is_fatal clock device_name platform_name
    parent_dir log fs line rest :
  Convert.read_lines log = line :: rest ->
  json_loads line = None \/ json_loads (List.last (line :: rest) "") = None ->
  Convert.convert_conversation clock device_name platform_name parent_dir log
    fs = (Convert.Failed JSONDecodeError, fs).
Proof.
  intros Hlines Hbad. unfold Convert.convert_conversation. rewrite Hlines.
  assert (Hb : Convert.build clock device_name platform_name parent_dir
                 (line :: rest) fs = Raise JSONDecodeError).
  { unfold Convert.build, Convert.loads. cbn [hd].
    destruct (json_loads line) as [first_entry|]; [|reflexivity].
    destruct Hbad as [Hbad|Hbad]; [discriminate|].
    rewrite Hbad. reflexivity. }
  rewrite Hb. reflexivity.
Qed.

End Reconciler.

Lemma malformed_first_or_last_line_is_fatal_witness :
  Convert.convert_conversation Example.clock "host" "Linux" "-home-josh-app"
    Example.broken_first_log ∅ = (Convert.Failed JSONDecodeError, ∅)
  /\ Convert.convert_conversation Example.clock "host" "Linux"
       "-home-josh-app" Example.broken_last_log ∅
     = (Convert.Failed JSONDecodeError, ∅).
Proof.
  split.
  - eapply malformed_first_or_last_line_is_fatal;
      [vm_compute; reflexivity | left; vm_compute; reflexivity].
  - eapply malformed_first_or_last_line_is_fatal;
      [vm_compute; reflexivity | right; vm_compute; reflexivity].
Defined.

Lemma outcome_converted (r : Convert.outcome * gmap path string) sid act :
  r.1 = Convert.Converted sid act -> r = (Convert.Converted sid act, r.2).
Proof. destruct r as [o fs]. cbn. intros ->. reflexivity. Qed.

Section MissingIdentity.
Context `{Runtime}.

Lemma bind_step {A B} (m : result A) (k : A -> result B) (a : A) :
  m = Ok a -> m ≫= k = k a.
Proof. intros ->. reflexivity. Qed.

Lemma is_ok_inv {A} (m : result A) : is_ok m = true -> exists a, m = Ok a.
Proof. destruct m as [a|e]; [eauto | discriminate]. Qed.

Lemma resolve_unknown fields parent_dir lines :
  Val.dict_get fields "sessionId" = None
  \/ Val.dict_get fields "sessionId" = Some (VStr "unknown") ->
  Convert.resolve_session_id (VDict fields) parent_dir lines
  = Ok (VStr (Convert.unknown_session_id parent_dir lines)).
Proof.
  intros [Hid|Hid]; unfold Convert.resolve_session_id; cbn; rewrite Hid;
    reflexivity.
Qed.

(** The loop over the transcript gets past a line that does not decode, and
    past an object, provided its message normalizes if it is a user or an
    assistant entry. *)
Lemma render_line_ok now line :
  Spec.renders line -> exists l, Convert.render_line now line = Ok l.
Proof.
  unfold Convert.render_line.
  intros [Hnone|(fields & Hl & Hc)]; [rewrite Hnone; eauto|].
  rewrite Hl. cbn [Val.get mbind result_bind]. fold (Spec.type_of fields).
  destruct (Convert.format_timestamp now _) as [[time_str date_str] dt].
  destruct (Val.eq_str (Spec.type_of fields) "user") eqn:Huser.
  { destruct (is_ok_inv _ (Hc eq_refl)) as [content ->]. cbn. eauto. }
  destruct (Val.eq_str (Spec.type_of fields) "assistant") eqn:Hassistant.
  { destruct (is_ok_inv _ (Hc eq_refl)) as [content ->]. cbn. eauto. }
  destruct (Val.eq_str _ "tool_result"); [|eauto].
  unfold Val.contains, Val.subscript.
  destruct (Val.dict_get fields "content") as [v|]; cbn; eauto.
Qed.

(** It stops at any other line, with an exception its handler does not
    catch. *)
Lemma render_line_raises now line :
  ~ Spec.renders line -> exists e, Convert.render_line now line = Raise e.
Proof.
  intros Hnot. unfold Convert.render_line.
  destruct (json_loads line) as [entry|] eqn:Hl;
    [|exfalso; apply Hnot; left; exact Hl].
  destruct entry as [| | | | | |fields]; try (cbn; eauto).
  cbn [Val.get mbind result_bind]. fold (Spec.type_of fields).
  destruct (Convert.format_timestamp now _) as [[time_str date_str] dt].
  destruct (Convert.extract_content
              (default (VDict []) (Val.dict_get fields "message")))
    as [content|e] eqn:Hc.
  { exfalso. apply Hnot. right. exists fields. split; [exact Hl|].
    intros _. rewrite Hc. reflexivity. }
  destruct (Val.eq_str (Spec.type_of fields) "user") eqn:Huser;
    [cbn; eauto|].
  destruct (Val.eq_str (Spec.type_of fields) "assistant") eqn:Hassistant;
    [cbn; eauto|].
  exfalso. apply Hnot. right. exists fields. split; [exact Hl|].
  rewrite Huser, Hassistant. intros Hshown. discriminate Hshown.
Qed.

Lemma render_lines_ok clock i lines :
  (forall l, l ∈ lines -> Spec.renders l) ->
  exists body, Convert.render_lines clock i lines = Ok body.
Proof.
  revert i; induction lines as [|line rest IH]; intros i Hwf.
  - exists []. reflexivity.
  - destruct (render_line_ok (clock (2 + i)%nat) line) as [l Hr];
      [apply Hwf; left|].
    destruct (IH (S i)) as [ls Hrs];
      [intros l' Hl'; apply Hwf; right; exact Hl'|].
    exists (l ++ ls). cbn [Convert.render_lines].
    rewrite (bind_step _ _ _ Hr), (bind_step _ _ _ Hrs). reflexivity.
Qed.

Lemma render_lines_raises clock i lines line :
  line ∈ lines -> ~ Spec.renders line ->
  exists e, Convert.render_lines clock i lines = Raise e.
Proof.
  intros Hin Hnot. revert i.
  induction lines as [|l rest IH]; intros i; [inversion Hin|].
  cbn [Convert.render_lines].
  destruct (Convert.render_line (clock (2 + i)%nat) l) as [shown|e] eqn:Hl;
    [|cbn; eauto].
  cbn [mbind result_bind].
  apply elem_of_cons in Hin as [->|Hin].
  - destruct (render_line_raises (clock (2 + i)%nat) l Hnot) as [e He].
    congruence.
  - destruct (IH Hin (S i)) as [e ->]. cbn. eauto.
Qed.

Lemma last_elem_of {A} (x : A) (l : list A) (d : A) :
  List.last (x :: l) d ∈ x :: l.
Proof.
  revert x; induction l as [|y l IH]; intros x; [left|].
  right. exact (IH y).
Qed.


End MissingIdentity.



(** ** Reading back the front matter *)

Lemma file_lines_line (s t : string) :
  Spec.one_line s = true ->
  Py.file_lines (s +:+ Py.nl +:+ t) = s :: Py.file_lines t.
Proof.
  induction s as [|c s IH]; intros Hs; [reflexivity|].
  cbn [Spec.one_line] in Hs. apply andb_true_iff in Hs as [Hc Hs].
  apply negb_true_iff in Hc.
  change (String c s +:+ Py.nl +:+ t) with (String c (s +:+ Py.nl +:+ t)).
  cbn [Py.file_lines]. rewrite Hc, (IH Hs). reflexivity.
Qed.

Lemma join_cons (sep x y : string) (rest : list string) :
  Py.join sep (x :: y :: rest) = x +:+ sep +:+ Py.join sep (y :: rest).
Proof. reflexivity. Qed.

Lemma file_lines_join (l : list string) (x : string) (rest : list string) :
  Forall (fun s => Spec.one_line s = true) l ->
  Py.file_lines (Py.join Py.nl (l ++ x :: rest))
  = l ++ Py.file_lines (Py.join Py.nl (x :: rest)).
Proof.
  induction l as [|a l IH]; intros Hl; [reflexivity|].
  apply Forall_cons in Hl as [Ha Hl].
  assert (Hj : Py.join Py.nl ((a :: l) ++ x :: rest)
               = a +:+ Py.nl +:+ Py.join Py.nl (l ++ x :: rest))
    by (destruct l; reflexivity).
  rewrite Hj, (file_lines_line _ _ Ha), (IH Hl). reflexivity.
Qed.

Lemma strip_head (c : ascii) (s : string) :
  Py.isspace c = false -> exists t, Py.strip (String c s) = String c t.
Proof.
  intros Hc. unfold Py.strip. cbn [Py.lstrip]. rewrite Hc.
  cbn [Py.rstrip]. rewrite Hc. destruct (Py.rstrip s); eauto.
Qed.

Lemma strip_not_rule (c : ascii) (s : string) :
  Py.isspace c = false -> Ascii.eqb c "-" = false ->
  String.eqb (Py.strip (String c s)) "---" = false.
Proof.
  intros Hc Hd. destruct (strip_head c s Hc) as [t ->].
  cbn [String.eqb]. rewrite Hd. reflexivity.
Qed.

Lemma strip_leading_space (s : string) :
  Py.strip (String " " s) = Py.strip s.
Proof. reflexivity. Qed.

Section ReadField.
Import Convert.

(** One [key: value] line inside the front matter. *)
Lemma read_field (c : ascii) (prefix key value : string)
    (rest : list string) (m : gmap string string) :
  Py.isspace c = false -> Ascii.eqb c "-" = false ->
  (forall v, Py.split_once ":" (String c prefix +:+ v)
             = Some (key, String " " v)) ->
  Py.strip key = key ->
  read_frontmatter true ((String c prefix +:+ value) :: rest) m
  = read_frontmatter true rest (<[key := Py.strip value]> m).
Proof.
  intros Hc Hd Hsplit Hkey. cbn [read_frontmatter].
  change (String c prefix +:+ value) with (String c (prefix +:+ value)) at 1.
  rewrite (strip_not_rule _ _ Hc Hd), Hsplit, Hkey, strip_leading_space.
  reflexivity.
Qed.

Lemma read_rule_opens (l : list string) (m : gmap string string) :
  read_frontmatter false ("---" :: l) m = read_frontmatter true l m.
Proof. reflexivity. Qed.

Lemma read_rule_closes (l : list string) (m : gmap string string) :
  read_frontmatter true ("---" :: l) m = m.
Proof. reflexivity. Qed.

Lemma read_heading (l : list string) (m : gmap string string) :
  read_frontmatter true ("# Obsidian Bases Properties" :: l) m
  = read_frontmatter true l m.
Proof. reflexivity. Qed.

(** The front matter reads back the [first_seen] it shows, stripped, when
    none of its lines holds a line break. *)
Lemma read_front_matter device_name platform_name user_type first_seen
    last_timestamp first_date_str session_id project_path project_name
    conversation_title message_count tools_used tags duration_minutes model
    status has_errors (x : string) (rest : list string) :
  Forall (fun s => Spec.one_line s = true)
    (front_matter device_name platform_name user_type first_seen
       last_timestamp first_date_str session_id project_path project_name
       conversation_title message_count tools_used tags duration_minutes model
       status has_errors) ->
  read_frontmatter false
    (Py.file_lines
       (Py.join Py.nl
          (front_matter device_name platform_name user_type first_seen
             last_timestamp first_date_str session_id project_path
             project_name conversation_title message_count tools_used tags
             duration_minutes model status has_errors ++ x :: rest))) ∅
    !! "first_seen" = Some (Py.strip first_seen).
Proof.
  intros Hone. rewrite (file_lines_join _ _ _ Hone).
  unfold front_matter. cbn [app].
  rewrite read_rule_opens, read_heading.
  do 17 (erewrite read_field;
         [| reflexivity | reflexivity | intros v; reflexivity | reflexivity]).
  rewrite read_rule_closes.
  do 13 (rewrite lookup_insert_ne by discriminate).
  apply lookup_insert_eq.
Qed.

End ReadField.

Section Idempotence.
Context `{Runtime}.

Lemma format_timestamp_clock now now' timestamp :
  is_Some (Convert.parse_timestamp timestamp) ->
  Convert.format_timestamp now timestamp
  = Convert.format_timestamp now' timestamp.
Proof.
  intros [dt Hdt]. unfold Convert.format_timestamp. rewrite Hdt. reflexivity.
Qed.

(** Only a user, an assistant or a tool_result entry is shown under its
    time. *)
Lemma render_line_clock now now' line :
  (Spec.timed line -> Spec.stamped line) ->
  Convert.render_line now line = Convert.render_line now' line.
Proof.
  intros Hparse. unfold Convert.render_line.
  destruct (json_loads line) as [entry|] eqn:Hline; [|reflexivity].
  destruct entry as [| | | | | |fields]; try reflexivity.
  cbn [Val.get mbind result_bind].
  fold (Spec.type_of fields).
  destruct (Val.eq_str (Spec.type_of fields) "user"
            || Val.eq_str (Spec.type_of fields) "assistant"
            || Val.eq_str (Spec.type_of fields) "tool_result") eqn:Htimed.
  - assert (Hts : is_Some (Convert.parse_timestamp
                             (default (VStr "")
                                      (Val.dict_get fields "timestamp")))).
    { apply (Hparse (ex_intro _ fields (conj Hline Htimed)) (VDict fields));
        [exact Hline | reflexivity]. }
    rewrite (format_timestamp_clock now now' _ Hts). reflexivity.
  - apply orb_false_iff in Htimed as [Htimed Hresult].
    apply orb_false_iff in Htimed as [Huser Hassistant].
    rewrite Huser, Hassistant, Hresult.
    destruct (Convert.format_timestamp now _) as [[t d] dt].
    destruct (Convert.format_timestamp now' _) as [[t' d'] dt'].
    reflexivity.
Qed.

Lemma render_lines_clock clock clock' i lines :
  (forall line, line ∈ lines -> Spec.timed line -> Spec.stamped line) ->
  Convert.render_lines clock i lines = Convert.render_lines clock' i lines.
Proof.
  revert i; induction lines as [|line rest IH]; intros i Hparse;
    [reflexivity|].
  cbn [Convert.render_lines].
  rewrite (render_line_clock (clock (2 + i)%nat) (clock' (2 + i)%nat) line).
  - rewrite (IH (S i)); [reflexivity|].
    intros l Hl. apply Hparse. right. exact Hl.
  - apply Hparse. left.
Qed.



End Idempotence.

Lemma second_run_differs_eqb :
  String.eqb (default "" (Example.summary_first !! Example.summary_out))
             (default "" (Example.summary_second !! Example.summary_out))
  || String.eqb (default "" (Example.injected_first !! Example.injected_out))
                (default "" (Example.injected_second !! Example.injected_out))
  = false.
Proof. vm_compute. reflexivity. Qed.



(** Two runs over the log whose model name holds a line break: the first
    writes the first timestamp of the log as [first_seen], the second reads
    the artifact back and writes another. *)
Lemma first_seen_rewritten_example :
  exists a a',
    Convert.build Example.clock "host" "Linux" "-home-josh-app"
      (Convert.read_lines Example.injected_log) ∅ = Ok a
    /\ Example.injected_first !! Convert.output_file a
       = Some (Py.join Py.nl (Convert.md_content a))
    /\ Convert.build Example.clock "host" "Linux" "-home-josh-app"
         (Convert.read_lines Example.injected_log) Example.injected_first
       = Ok a'
    /\ Convert.output_file a' = Convert.output_file a
    /\ Convert.first_seen a = "2024-05-01T10:00:00Z"
    /\ Convert.first_seen a' = "1999-01-01"
    /\ Convert.first_seen a' <> Convert.first_seen a.
Proof.
  eexists. eexists.
  split; [vm_compute; reflexivity|].
  split; [vm_compute; reflexivity|].
  split; [vm_compute; reflexivity|].
  split; [reflexivity|]. split; [reflexivity|]. split; [reflexivity|].
  discriminate.
Qed.


(** ** Duplicate Consolidator *)

Section Consolidator.
Import Migrate.

Lemma bind_done {A B} (m : M A) (k : A -> M B) st a st' :
  m st = Done a st' -> (m ≫= k) st = k a st'.
Proof. intros Hm. unfold mbind, M_bind, bind. rewrite Hm. reflexivity. Qed.

Lemma bind_aborted {A B} (m : M A) (k : A -> M B) st e st' :
  m st = Aborted e st' -> (m ≫= k) st = Aborted e st'.
Proof. intros Hm. unfold mbind, M_bind, bind. rewrite Hm. reflexivity. Qed.

Lemma read_text_ok f text st :
  fs st !! f = Some text -> read_text f st = Done text st.
Proof. intros Hf. unfold read_text. rewrite Hf. reflexivity. Qed.

Lemma read_text_missing f st :
  fs st !! f = None -> read_text f st = Aborted FileNotFoundError st.
Proof. intros Hf. unfold read_text. rewrite Hf. reflexivity. Qed.

Lemma extract_metadata_ok f text st :
  fs st !! f = Some text -> extract_metadata f st = Done (metadata_of text) st.
Proof.
  intros Hf. unfold extract_metadata.
  rewrite (bind_done _ _ _ _ _ (read_text_ok _ _ _ Hf)). reflexivity.
Qed.

(** The count the selection loop compares is the recorded one. *)
Lemma metadata_count text :
  match metadata_of text !! "message_count" with
  | Some (VInt n) => n
  | _ => 0%Z
  end = Spec.message_count text.
Proof.
  unfold metadata_of, Spec.message_count.
  rewrite lookup_fmap.
  destruct (read_frontmatter false (Py.file_lines text) ∅ !! "message_count")
    as [recorded|] eqn:Hr; cbn.
  - rewrite lookup_insert_eq. reflexivity.
  - rewrite lookup_fmap, Hr. reflexivity.
Qed.

Lemma select_best_step f rest best_file best_count text st :
  fs st !! f = Some text ->
  select_best (f :: rest) best_file best_count st
  = if (best_count <? Spec.message_count text)%Z
    then select_best rest (Some f) (Spec.message_count text) st
    else select_best rest best_file best_count st.
Proof.
  intros Hf. cbn [select_best].
  rewrite (bind_done _ _ _ _ _ (extract_metadata_ok _ _ _ Hf)).
  rewrite metadata_count. destruct (_ <? _)%Z; reflexivity.
Qed.

(** The selection loop on readable files: it leaves the state alone, its
    count bounds every count of the group, and either nothing beat the
    initial pair or the file it keeps is in the group, with the count it
    returns, above the initial one. *)
Lemma select_best_spec files best0 count0 st :
  (forall f, f ∈ files -> is_Some (fs st !! f)) ->
  exists best count,
    select_best files best0 count0 st = Done (best, count) st
    /\ (count0 <= count)%Z
    /\ (forall f, f ∈ files -> (Spec.count_at (fs st) f <= count)%Z)
    /\ ((best = best0 /\ count = count0)
        \/ (exists b, best = Some b /\ b ∈ files
                      /\ Spec.count_at (fs st) b = count
                      /\ (count0 < count)%Z)).
Proof.
  revert best0 count0; induction files as [|f rest IH]; intros best0 count0 Hread.
  - exists best0, count0. split; [reflexivity|]. split; [lia|].
    split; [intros f Hf; inversion Hf | left; split; reflexivity].
  - destruct (Hread f) as [text Hf]; [left|].
    assert (Hrest : forall g, g ∈ rest -> is_Some (fs st !! g))
      by (intros g Hg; apply Hread; right; exact Hg).
    assert (Hcount : Spec.count_at (fs st) f = Spec.message_count text)
      by (unfold Spec.count_at; rewrite Hf; reflexivity).
    rewrite (select_best_step _ _ _ _ _ _ Hf).
    destruct (Z.ltb_spec count0 (Spec.message_count text)) as [Hlt|Hge].
    + destruct (IH (Some f) (Spec.message_count text) Hrest)
        as (best & count & Hsel & Hle & Hall & Hcase).
      exists best, count. split; [exact Hsel|]. split; [lia|]. split.
      * intros g Hg. apply elem_of_cons in Hg as [->|Hg];
          [rewrite Hcount; exact Hle | apply Hall; exact Hg].
      * right. destruct Hcase as [[-> ->]|(b & -> & Hb & Hcb & Hgt)].
        -- exists f. repeat split; [left | exact Hcount | exact Hlt].
        -- exists b. repeat split; [right; exact Hb | exact Hcb | lia].
    + destruct (IH best0 count0 Hrest)
        as (best & count & Hsel & Hle & Hall & Hcase).
      exists best, count. split; [exact Hsel|]. split; [exact Hle|]. split.
      * intros g Hg. apply elem_of_cons in Hg as [->|Hg];
          [rewrite Hcount; lia | apply Hall; exact Hg].
      * destruct Hcase as [Hsame|(b & -> & Hb & Hcb & Hgt)]; [left; exact Hsame|].
        right. exists b. repeat split; [right; exact Hb | exact Hcb | exact Hgt].
Qed.

(** C10. In a group of readable artifacts the selection yields a
    representative exactly when some artifact has a message count above 0;
    a missing or unparseable count is 0. The representative is then an
    artifact of the group whose count no other exceeds. For a group of more
    than one artifact without a positive count no representative is selected,
    and the step that follows works on the null representative: the run
    stops with an [AttributeError] before anything is copied. *)
Theorem select_best_needs_positive_count (session_id : string)
    (files : list path) (st : state) :
  (forall f, f ∈ files -> is_Some (fs st !! f)) ->
  exists best count,
    select_best files None 0 st = Done (best, count) st
    /\ (best = None <->
        forall f, f ∈ files -> (Spec.count_at (fs st) f <= 0)%Z)
    /\ (is_Some best <->
        exists f, f ∈ files /\ (0 < Spec.count_at (fs st) f)%Z)
    /\ (forall b, best = Some b ->
        b ∈ files /\ Spec.count_at (fs st) b = count /\ (0 < count)%Z
        /\ forall f, f ∈ files -> (Spec.count_at (fs st) f <= count)%Z)
    /\ ((1 < length files)%nat -> best = None ->
        migrate_session session_id files st = Aborted AttributeError st).
Proof.
  intros Hread.
  destruct (select_best_spec files None 0%Z st Hread)
    as (best & count & Hsel & Hle & Hall & Hcase).
  exists best, count. split; [exact Hsel|].
  assert (Hnone : best = None <->
            forall f, f ∈ files -> (Spec.count_at (fs st) f <= 0)%Z).
  { split.
    - intros ->. destruct Hcase as [[_ ->]|(b & Hb & _)]; [exact Hall | discriminate].
    - intros Hzero. destruct Hcase as [[-> _]|(b & -> & Hb & Hcb & Hgt)];
        [reflexivity|]. specialize (Hzero b Hb). lia. }
  split; [exact Hnone|]. split; [|split].
  - split.
    + intros [b ->]. destruct Hcase as [[Hb _]|(b' & Hb' & Hin & Hcb & Hgt)];
        [discriminate|]. exists b'. split; [exact Hin | lia].
    + intros (f & Hf & Hpos). destruct best as [b|]; [eexists; reflexivity|].
      destruct Hnone as [Hnone _]. specialize (Hnone eq_refl f Hf). lia.
  - intros b ->. destruct Hcase as [[Hb _]|(b' & Hb' & Hin & Hcb & Hgt)];
      [discriminate|]. injection Hb' as ->.
    repeat split; [exact Hin | exact Hcb | lia | exact Hall].
  - intros Hlen ->. destruct files as [|f1 [|f2 rest]]; cbn in Hlen; try lia.
    cbn [migrate_session].
    rewrite (bind_done _ _ _ _ _ Hsel). reflexivity.
Qed.

End Consolidator.

Lemma select_best_needs_positive_count_witness :
  Migrate.migrate_session "abc123" [Tree.a_md; Tree.b_md]
    (Tree.start Tree.uncounted)
  = Migrate.Aborted AttributeError (Tree.start Tree.uncounted).
Proof.
  assert (Hread : forall f, f ∈ [Tree.a_md; Tree.b_md] ->
            is_Some (Migrate.fs (Tree.start Tree.uncounted) !! f)).
  { intros f Hf. apply elem_of_cons in Hf as [->|Hf];
      [vm_compute; eauto|].
    apply elem_of_cons in Hf as [->|Hf]; [vm_compute; eauto | inversion Hf]. }
  destruct (select_best_needs_positive_count "abc123" [Tree.a_md; Tree.b_md]
              (Tree.start Tree.uncounted) Hread)
    as (best & count & _ & Hnone & _ & _ & Habort).
  apply Habort; [cbn; lia|]. apply Hnone.
  intros f Hf. apply elem_of_cons in Hf as [->|Hf]; [vm_compute; discriminate|].
  apply elem_of_cons in Hf as [->|Hf]; [vm_compute; discriminate | inversion Hf].
Defined.

Section GroupFailure.
Import Migrate.

Lemma migrate_sessions_cons session_id files rest st :
  migrate_sessions ((session_id, files) :: rest) st
  = match migrate_session session_id files st with
    | Done _ st1 => migrate_sessions rest st1
    | Aborted e st1 => Aborted e st1
    end.
Proof. reflexivity. Qed.

(** C5, amended. Nothing in the loop over the groups handles an exception:
    a failure while the artifacts of one group are copied or moved ends the
    run. The groups processed before it keep their effects, the failing group
    is left as the exception found it, and the groups after it are not
    processed, whatever they are. *)
Theorem group_failure_aborts_run (before after : list (string * list path))
    (session_id : string) (files : list path) (st st1 st2 : state) (e : exn) :
  migrate_sessions before st = Done () st1 ->
  migrate_session session_id files st1 = Aborted e st2 ->
  migrate_sessions (before ++ (session_id, files) :: after) st
  = Aborted e st2.
Proof.
  revert st; induction before as [|[sid fl] before IH]; intros st Hbefore Hfail.
  - cbn in Hbefore. injection Hbefore as <-.
    cbn [app]. rewrite migrate_sessions_cons, Hfail. reflexivity.
  - cbn [app]. rewrite migrate_sessions_cons in *.
    destruct (migrate_session sid fl st) as [[] st'|e' st']; [|discriminate].
    apply IH; assumption.
Qed.

End GroupFailure.

(** A group whose only file has vanished since the listing: the copy
    raises, and the group after it stays where it was, neither copied to
    its canonical path nor backed up. The same happens on a tree where the
    first group has no positive message count. *)
Lemma group_failure_example :
  (exists st,
     Migrate.migrate_sessions
       [("abc123", [Tree.a_md]); ("zzz", [Tree.c_md])]
       (Tree.start Tree.vanished)
     = Migrate.Aborted FileNotFoundError st
     /\ is_Some (Migrate.fs st !! Tree.c_md)
     /\ Migrate.fs st !! Migrate.get_new_path "zzz" "DevA" Migrate.vault_dir
        = None
     /\ Migrate.fs st !! (Migrate.backup_dir
                          ++ Migrate.relative_to Tree.c_md
                               Migrate.old_devices_dir) = None)
  /\ (exists st,
        Migrate.main [Tree.a_md; Tree.b_md; Tree.c_md]
          (Tree.start Tree.uncounted)
        = Migrate.Aborted AttributeError st
        /\ is_Some (Migrate.fs st !! Tree.c_md)
        /\ Migrate.fs st !! Migrate.get_new_path "zzz" "DevA" Migrate.vault_dir
           = None).
Proof.
  split.
  - exists (Tree.start Tree.vanished).
    split; [reflexivity|].
    split; [vm_compute; eauto|]. split; vm_compute; reflexivity.
  - exists (Tree.start Tree.uncounted).
    split; [reflexivity|].
    split; [vm_compute; eauto | vm_compute; reflexivity].
Qed.

Lemma group_failure_aborts_run_witness :
  Migrate.migrate_sessions
    ([] ++ ("abc123", [Tree.a_md]) :: [("zzz", [Tree.c_md])])
    (Tree.start Tree.vanished)
  = Migrate.Aborted FileNotFoundError (Tree.start Tree.vanished).
Proof.
  apply (group_failure_aborts_run [] [("zzz", [Tree.c_md])] "abc123"
           [Tree.a_md] (Tree.start Tree.vanished) (Tree.start Tree.vanished)
           (Tree.start Tree.vanished) FileNotFoundError).
  - reflexivity.
  - reflexivity.
Defined.

(** ** Consolidation: paths *)

Section Paths.
Import Migrate.

Lemma old_devices_dir_parts :
  old_devices_dir = vault_dir ++ ["Devices"].
Proof. reflexivity. Qed.

Lemma path_join_nonempty (p : path) (s : string) :
  s <> "" -> path_join p s = p ++ [s].
Proof.
  intros Hs. unfold path_join. apply String.eqb_neq in Hs. rewrite Hs.
  reflexivity.
Qed.

Lemma path_join_length (p : path) (s : string) :
  (length (path_join p s) <= S (length p))%nat.
Proof.
  unfold path_join. destruct (String.eqb s ""); [lia|].
  rewrite length_app. cbn. lia.
Qed.

Lemma path_join_lookup (p : path) (s : string) (i : nat) :
  (i < length p)%nat -> path_join p s !! i = p !! i.
Proof.
  intros Hi. unfold path_join. destruct (String.eqb s ""); [reflexivity|].
  apply lookup_app_l. exact Hi.
Qed.

Lemma canonical_length (sid dev : string) :
  (length (Spec.canonical sid dev) <= 10)%nat.
Proof.
  unfold Spec.canonical, get_new_path.
  repeat (etrans; [apply path_join_length|]; apply le_n_S).
  cbn. lia.
Qed.

Lemma path_join_length_ge (p : path) (s : string) :
  (length p <= length (path_join p s))%nat.
Proof.
  unfold path_join. destruct (String.eqb s ""); [lia|].
  rewrite length_app. cbn. lia.
Qed.

Lemma canonical_root (sid dev : string) :
  Spec.canonical sid dev !! 6%nat = Some "Devices".
Proof.
  unfold Spec.canonical, get_new_path.
  assert (H7 : (6 < length (path_join vault_dir "Devices"))%nat)
    by (cbn; lia).
  pose proof (path_join_length_ge (path_join vault_dir "Devices") dev) as H8.
  pose proof (path_join_length_ge
                (path_join (path_join vault_dir "Devices") dev)
                (if Py.startswith "unknown" sid then "unknown"
                 else Py.take 2 sid)) as H9.
  rewrite path_join_lookup by lia.
  rewrite path_join_lookup by lia.
  rewrite path_join_lookup by lia.
  reflexivity.
Qed.

Lemma legacy_length (f : path) : Spec.legacy f -> length f = 12%nat.
Proof. intros (d & y & m & dd & n & -> & _). reflexivity. Qed.

Lemma legacy_root (f : path) : Spec.legacy f -> f !! 6%nat = Some "Devices".
Proof. intros (d & y & m & dd & n & -> & _). reflexivity. Qed.

Lemma backup_root (f : path) :
  Spec.backup_path f !! 6%nat = Some "OLD_STRUCTURE_BACKUP".
Proof. reflexivity. Qed.

Lemma artifact_root (p : path) :
  Spec.is_artifact p -> p !! 6%nat = Some "Devices".
Proof.
  intros [Htake _].
  assert (Hl : take 7 p !! 6%nat = Some "Devices") by (rewrite Htake; reflexivity).
  rewrite lookup_take_lt in Hl by lia. exact Hl.
Qed.

Lemma legacy_not_canonical (f : path) (sid dev : string) :
  Spec.legacy f -> f <> Spec.canonical sid dev.
Proof.
  intros Hf Heq. pose proof (legacy_length f Hf) as Hlen.
  pose proof (canonical_length sid dev) as Hc. rewrite <- Heq in Hc. lia.
Qed.

Lemma backup_not_legacy (f g : path) :
  Spec.legacy g -> Spec.backup_path f <> g.
Proof.
  intros Hg Heq. pose proof (legacy_root g Hg) as Hr.
  rewrite <- Heq, backup_root in Hr. discriminate.
Qed.

Lemma backup_not_canonical (f : path) (sid dev : string) :
  Spec.backup_path f <> Spec.canonical sid dev.
Proof.
  intros Heq. pose proof (canonical_root sid dev) as Hr.
  rewrite <- Heq, backup_root in Hr. discriminate.
Qed.

Lemma backup_not_artifact (f : path) : ~ Spec.is_artifact (Spec.backup_path f).
Proof.
  intros Ha. apply artifact_root in Ha. rewrite backup_root in Ha.
  discriminate.
Qed.

Lemma backup_inj (f g : path) :
  Spec.legacy f -> Spec.legacy g ->
  Spec.backup_path f = Spec.backup_path g -> f = g.
Proof.
  intros (d & y & m & dd & n & -> & _) (d' & y' & m' & dd' & n' & -> & _).
  unfold Spec.backup_path, relative_to. cbn. intros Heq.
  injection Heq as -> -> -> -> ->. reflexivity.
Qed.

Lemma legacy_device (f : path) :
  Spec.legacy f -> device_of f = ret (Spec.device f) /\ Spec.device f <> "".
Proof.
  intros (d & y & m & dd & n & -> & Hd). split; [reflexivity|exact Hd].
Qed.

Lemma len_append (s t : string) : Py.len (s +:+ t) = (Py.len s + Py.len t)%nat.
Proof.
  induction s as [|c s IH]; [reflexivity|].
  change (String c s +:+ t) with (String c (s +:+ t)). cbn [Py.len].
  rewrite IH. reflexivity.
Qed.

Lemma append_inj_r (s s' t : string) : s +:+ t = s' +:+ t -> s = s'.
Proof.
  intros Heq.
  assert (Hlen : Py.len s = Py.len s').
  { apply (f_equal Py.len) in Heq. rewrite !len_append in Heq. lia. }
  revert s' Heq Hlen; induction s as [|c s IH]; intros [|c' s'] Heq Hlen;
    try discriminate; [reflexivity|].
  change (String c (s +:+ t) = String c' (s' +:+ t)) in Heq.
  cbn [Py.len] in Hlen. injection Heq as -> Heq. f_equal.
  apply IH; [exact Heq | lia].
Qed.

Lemma folder_nonempty (sid : string) :
  sid <> "" ->
  (if Py.startswith "unknown" sid then "unknown" else Py.take 2 sid) <> "".
Proof.
  intros Hs. destruct (Py.startswith "unknown" sid); [discriminate|].
  destruct sid as [|c [|c' s]]; [congruence|discriminate|discriminate].
Qed.

Lemma canonical_parts (sid dev : string) :
  sid <> "" -> dev <> "" ->
  Spec.canonical sid dev
  = old_devices_dir
    ++ [dev; if Py.startswith "unknown" sid then "unknown" else Py.take 2 sid;
        sid +:+ ".md"].
Proof.
  intros Hs Hd. unfold Spec.canonical, get_new_path.
  rewrite (path_join_nonempty _ "Devices") by discriminate.
  rewrite (path_join_nonempty _ dev Hd).
  rewrite (path_join_nonempty _ _ (folder_nonempty sid Hs)).
  rewrite path_join_nonempty by (destruct sid; discriminate).
  rewrite <- !app_assoc. reflexivity.
Qed.

Lemma canonical_inj (sid sid' dev dev' : string) :
  sid <> "" -> sid' <> "" -> dev <> "" -> dev' <> "" ->
  Spec.canonical sid dev = Spec.canonical sid' dev' -> sid = sid'.
Proof.
  intros Hs Hs' Hd Hd'. rewrite !canonical_parts by assumption.
  intros Heq. apply app_inv_head in Heq. injection Heq as _ _ Heq.
  exact (append_inj_r _ _ _ Heq).
Qed.

End Paths.

(** ** Consolidation: one group *)

Section OneGroup.
Import Migrate.

Lemma copy2_ok src dst text st :
  fs st !! src = Some text -> src <> dst ->
  exists st1, copy2 src dst st = Done () st1
              /\ fs st1 = <[dst := text]> (fs st).
Proof.
  intros Hsrc Hne. unfold copy2.
  rewrite (bind_done _ _ _ _ _ (read_text_ok _ _ _ Hsrc)).
  rewrite bool_decide_eq_false_2 by exact Hne.
  eexists. split; reflexivity.
Qed.

Lemma backup_ok f text st :
  fs st !! f = Some text ->
  exists st1, backup f st = Done () st1
              /\ fs st1 = <[Spec.backup_path f := text]> (delete f (fs st)).
Proof.
  intros Hf. unfold backup, move.
  rewrite (bind_done _ _ _ _ _ (read_text_ok _ _ _ Hf)).
  eexists. split; reflexivity.
Qed.

Lemma count_duplicate_unless (b : bool) st :
  exists st1, (if b then ret () else count_duplicate) st = Done () st1
              /\ fs st1 = fs st.
Proof. destruct b; eexists; split; reflexivity. Qed.

(** The loop that moves the files of a group to the backup. *)
Lemma backup_all_spec files best st :
  NoDup files ->
  (forall f, f ∈ files -> Spec.legacy f /\ is_Some (fs st !! f)) ->
  exists st1,
    backup_all files best st = Done () st1
    /\ (forall f, f ∈ files ->
          fs st1 !! f = None /\ fs st1 !! Spec.backup_path f = fs st !! f)
    /\ (forall p, fs st1 !! p = fs st !! p \/ p ∈ files
                  \/ exists f, f ∈ files /\ p = Spec.backup_path f).
Proof.
  revert st; induction files as [|f rest IH]; intros st Hnd Hfiles.
  - exists st. split; [reflexivity|]. split; [intros f Hf; inversion Hf|].
    intros p. left. reflexivity.
  - apply NoDup_cons in Hnd as [Hfresh Hnd].
    destruct (Hfiles f) as [Hleg [text Hf]]; [left|].
    destruct (backup_ok f text st Hf) as (st1 & Hst1 & Hfs1).
    destruct (count_duplicate_unless (bool_decide (f = best)) st1)
      as (st2 & Hst2 & Hfs2).
    assert (Hkeep : forall g, g ∈ rest -> fs st2 !! g = fs st !! g).
    { intros g Hg. rewrite Hfs2, Hfs1.
      rewrite lookup_insert_ne
        by (apply backup_not_legacy; apply Hfiles; right; exact Hg).
      apply lookup_delete_ne. intros ->. exact (Hfresh Hg). }
    destruct (IH st2 Hnd) as (st3 & Hst3 & Hmoved & Hother).
    { intros g Hg. split; [apply Hfiles; right; exact Hg|].
      rewrite (Hkeep g Hg). apply Hfiles. right. exact Hg. }
    exists st3. split.
    { cbn [backup_all]. rewrite (bind_done _ _ _ _ _ Hst1).
      rewrite (bind_done _ _ _ _ _ Hst2). exact Hst3. }
    split.
    + intros g Hg. apply elem_of_cons in Hg as [->|Hg].
      * split.
        -- destruct (Hother f) as [Hsame|[Hin|(g & Hg & Heq)]].
           ++ rewrite Hsame, Hfs2, Hfs1.
              rewrite lookup_insert_ne by (apply backup_not_legacy; exact Hleg).
              apply lookup_delete_eq.
           ++ destruct (Hfresh Hin).
           ++ symmetry in Heq. destruct (backup_not_legacy _ _ Hleg Heq).
        -- destruct (Hother (Spec.backup_path f)) as [Hsame|[Hin|(g & Hg & Heq)]].
           ++ rewrite Hsame, Hfs2, Hfs1, Hf. apply lookup_insert_eq.
           ++ destruct (backup_not_legacy f (Spec.backup_path f));
                [apply Hfiles; right; exact Hin | reflexivity].
           ++ apply backup_inj in Heq;
                [subst g; destruct (Hfresh Hg) | exact Hleg
                 | apply Hfiles; right; exact Hg].
      * destruct (Hmoved g Hg) as [Hgone Hback]. split; [exact Hgone|].
        rewrite Hback. apply Hkeep. exact Hg.
    + intros p. destruct (Hother p) as [Hsame|[Hin|(g & Hg & Heq)]].
      * destruct (decide (p = f)) as [->|Hpf]; [right; left; left|].
        destruct (decide (p = Spec.backup_path f)) as [->|Hpb].
        -- right. right. exists f. split; [left|reflexivity].
        -- left. rewrite Hsame, Hfs2, Hfs1.
           rewrite lookup_insert_ne by congruence.
           apply lookup_delete_ne. congruence.
      * right. left. right. exact Hin.
      * right. right. exists g. split; [right; exact Hg|exact Heq].
Qed.

Lemma backup_all_single f best st st3 :
  backup_all [f] best st = Done () st3 ->
  exists st1, backup f st = Done () st1 /\ fs st1 = fs st3.
Proof.
  cbn [backup_all]. unfold mbind, M_bind, bind.
  destruct (backup f st) as [[] s1|e s1]; [|discriminate].
  destruct (bool_decide (f = best)); cbn; intros Heq;
    apply (f_equal (fun r => match r with
                             | Done _ s => fs s
                             | Aborted _ s => fs s
                             end)) in Heq; cbn in Heq;
    eexists; (split; [reflexivity | exact Heq]).
Qed.

Lemma device_of_legacy f st :
  Spec.legacy f -> device_of f st = Done (Spec.device f) st.
Proof. intros (d & y & m & dd & n & -> & _). reflexivity. Qed.

(** One group, copied to its canonical path and moved to the backup. *)
Lemma migrate_session_spec sid files st :
  files <> [] -> NoDup files ->
  (forall f, f ∈ files -> Spec.legacy f /\ is_Some (fs st !! f)) ->
  ((1 < length files)%nat ->
   exists h, h ∈ files /\ (0 < Spec.count_at (fs st) h)%Z) ->
  exists best st1,
    migrate_session sid files st = Done () st1
    /\ best ∈ files
    /\ (forall f, f ∈ files ->
          (Spec.count_at (fs st) f <= Spec.count_at (fs st) best)%Z)
    /\ (forall f, f ∈ files ->
          fs st1 !! f = None /\ fs st1 !! Spec.backup_path f = fs st !! f)
    /\ fs st1 !! Spec.canonical sid (Spec.device best) = fs st !! best
    /\ (forall p, fs st1 !! p = fs st !! p \/ p ∈ files
                  \/ (exists f, f ∈ files /\ p = Spec.backup_path f)
                  \/ p = Spec.canonical sid (Spec.device best)).
Proof.
  intros Hne Hnd Hfiles Hpos.
  assert (Hchoice : exists best,
    best ∈ files
    /\ (forall f, f ∈ files ->
          (Spec.count_at (fs st) f <= Spec.count_at (fs st) best)%Z)
    /\ forall st2,
         copy2 best (Spec.canonical sid (Spec.device best)) st = Done () st2 ->
         exists st2',
           fs st2' = fs st2
           /\ forall st3,
                backup_all files best st2' = Done () st3 ->
                exists st4, migrate_session sid files st = Done () st4
                            /\ fs st4 = fs st3).
  { destruct files as [|f [|g rest]]; [congruence| |].
    - exists f. split; [left|]. split.
      { intros f' Hf'. apply list_elem_of_singleton in Hf' as ->. lia. }
      intros st2 Hcopy. exists st2. split; [reflexivity|].
      intros st3 Hback.
      destruct (backup_all_single _ _ _ _ Hback) as (st1 & Hst1 & Hfs1).
      cbn [migrate_session].
      rewrite (bind_done _ _ _ _ _
                 (device_of_legacy f st (proj1 (Hfiles f ltac:(left))))).
      unfold Spec.canonical in Hcopy. rewrite (bind_done _ _ _ _ _ Hcopy).
      rewrite (bind_done _ _ _ _ _ Hst1).
      eexists. split; [reflexivity|]. exact Hfs1.
    - destruct (select_best_spec (f :: g :: rest) None 0%Z st)
        as (best & count & Hsel & _ & Hmax & Hcase).
      { intros f' Hf'. apply Hfiles. exact Hf'. }
      destruct (Hpos ltac:(cbn; lia)) as (h & Hh & Hhpos).
      destruct Hcase as [[_ ->]|(b & -> & Hin & Hcount & _)];
        [specialize (Hmax h Hh); lia|].
      exists b. split; [exact Hin|]. split.
      { intros f' Hf'. rewrite Hcount. apply Hmax. exact Hf'. }
      intros st2 Hcopy.
      exists (mk_state (fs st2) (S (files_migrated st2))
                       (duplicates_removed st2)).
      split; [reflexivity|]. intros st3 Hback.
      cbn [migrate_session]. rewrite (bind_done _ _ _ _ _ Hsel). cbn [fst].
      rewrite (bind_done _ _ _ _ _
                 (device_of_legacy b st (proj1 (Hfiles b Hin)))).
      unfold Spec.canonical in Hcopy. rewrite (bind_done _ _ _ _ _ Hcopy).
      rewrite (bind_done _ _ _ _ _ (eq_refl : count_migrated st2 = Done () _)).
      rewrite Hback. eexists. split; reflexivity. }
  destruct Hchoice as (best & Hin & Hmax & Hrun).
  destruct (Hfiles best Hin) as [Hleg [text Hbest]].
  destruct (copy2_ok best (Spec.canonical sid (Spec.device best)) text st Hbest)
    as (st2 & Hst2 & Hfs2); [apply legacy_not_canonical; exact Hleg|].
  destruct (Hrun st2 Hst2) as (st2' & Hfs2' & Hrun').
  assert (Hkeep : forall f, f ∈ files -> fs st2' !! f = fs st !! f).
  { intros f Hf. rewrite Hfs2', Hfs2. apply lookup_insert_ne.
    intros Heq. symmetry in Heq. revert Heq. apply legacy_not_canonical.
    apply Hfiles. exact Hf. }
  destruct (backup_all_spec files best st2' Hnd) as (st3 & Hst3 & Hmoved & Hother).
  { intros f Hf. split; [apply Hfiles; exact Hf|].
    rewrite (Hkeep f Hf). apply Hfiles. exact Hf. }
  destruct (Hrun' st3 Hst3) as (st4 & Hst4 & Hfs4).
  exists best, st4. split; [exact Hst4|]. split; [exact Hin|].
  split; [exact Hmax|]. rewrite Hfs4. split; [|split].
  - intros f Hf. destruct (Hmoved f Hf) as [Hgone Hback].
    split; [exact Hgone|]. rewrite Hback. apply Hkeep. exact Hf.
  - destruct (Hother (Spec.canonical sid (Spec.device best)))
      as [Hsame|[Hc|(f & Hf & Heq)]].
    + rewrite Hsame, Hfs2', Hfs2, Hbest. apply lookup_insert_eq.
    + destruct (legacy_not_canonical _ sid (Spec.device best)
                  (proj1 (Hfiles _ Hc)) eq_refl).
    + symmetry in Heq. destruct (backup_not_canonical _ _ _ Heq).
  - intros p. destruct (Hother p) as [Hsame|[Hp|Hp]].
    + destruct (decide (p = Spec.canonical sid (Spec.device best)))
        as [->|Hpc]; [right; right; right; reflexivity|].
      left. rewrite Hsame, Hfs2', Hfs2. apply lookup_insert_ne. congruence.
    + right. left. exact Hp.
    + right. right. left. exact Hp.
Qed.

End OneGroup.

(** ** Consolidation: grouping *)

Section Grouping.
Import Migrate.

Lemma keyed_key_at fs f sid : Spec.keyed fs f sid <-> Spec.key_at fs f = Some sid.
Proof.
  unfold Spec.keyed, Spec.key_at. split.
  - intros (text & -> & Hk). exact Hk.
  - destruct (fs !! f) as [text|]; [eauto | discriminate].
Qed.

Lemma files_of_append_to acc sid f k :
  Spec.files_of (append_to acc sid f) k
  = Spec.files_of acc k ++ (if String.eqb sid k then [f] else []).
Proof.
  induction acc as [|[k' fl] rest IH]; [cbn; destruct (String.eqb sid k); reflexivity|].
  cbn [append_to]. destruct (String.eqb_spec k' sid) as [->|Hne].
  - cbn [Spec.files_of]. destruct (String.eqb sid k);
      [reflexivity | rewrite app_nil_r; reflexivity].
  - cbn [Spec.files_of]. destruct (String.eqb_spec k' k) as [->|Hne'].
    + destruct (String.eqb_spec sid k) as [->|_]; [congruence|].
      rewrite app_nil_r. reflexivity.
    + exact IH.
Qed.

Lemma append_to_keys acc sid f k :
  k ∈ map fst (append_to acc sid f) -> k ∈ map fst acc \/ k = sid.
Proof.
  induction acc as [|[k' fl] rest IH]; cbn [append_to map fst].
  - intros Hk. apply list_elem_of_singleton in Hk. right. exact Hk.
  - destruct (String.eqb k' sid); cbn [map fst]; intros Hk.
    + left. exact Hk.
    + apply elem_of_cons in Hk as [->|Hk]; [left; left|].
      destruct (IH Hk) as [Hin| ->]; [left; right; exact Hin | right; reflexivity].
Qed.

Lemma append_to_NoDup acc sid f :
  NoDup (map fst acc) -> NoDup (map fst (append_to acc sid f)).
Proof.
  induction acc as [|[k' fl] rest IH]; cbn [append_to map fst]; intros Hnd.
  - apply NoDup_singleton.
  - apply NoDup_cons in Hnd as [Hfresh Hnd].
    destruct (String.eqb_spec k' sid) as [->|Hne]; cbn [map fst].
    + apply NoDup_cons. split; assumption.
    + apply NoDup_cons. split; [|apply IH; exact Hnd].
      intros Hk. destruct (append_to_keys _ _ _ _ Hk) as [Hin|Heq];
        [exact (Hfresh Hin) | exact (Hne Heq)].
Qed.

Lemma append_to_nonempty acc sid f :
  sid <> "" ->
  (forall k fl, (k, fl) ∈ acc -> k <> "" /\ fl <> []) ->
  forall k fl, (k, fl) ∈ append_to acc sid f -> k <> "" /\ fl <> [].
Proof.
  intros Hsid. induction acc as [|[k' fl'] rest IH]; cbn [append_to];
    intros Hacc k fl Hin.
  - apply list_elem_of_singleton in Hin. injection Hin as -> ->.
    split; [exact Hsid | discriminate].
  - destruct (String.eqb k' sid).
    + apply elem_of_cons in Hin as [Heq|Hin].
      * injection Heq as -> ->. split; [apply (Hacc k' fl'); left|].
        destruct fl'; discriminate.
      * apply Hacc. right. exact Hin.
    + apply elem_of_cons in Hin as [Heq|Hin].
      * injection Heq as -> ->. apply Hacc. left.
      * apply IH; [|exact Hin]. intros k0 fl0 H0. apply Hacc. right. exact H0.
Qed.

Lemma files_of_elem acc k fl :
  NoDup (map fst acc) -> (k, fl) ∈ acc -> Spec.files_of acc k = fl.
Proof.
  induction acc as [|[k' fl'] rest IH]; intros Hnd Hin; [inversion Hin|].
  cbn [map fst] in Hnd. apply NoDup_cons in Hnd as [Hfresh Hnd].
  cbn [Spec.files_of]. apply elem_of_cons in Hin as [Heq|Hin].
  - injection Heq as -> ->. rewrite String.eqb_refl. reflexivity.
  - destruct (String.eqb_spec k' k) as [->|Hne]; [|apply IH; assumption].
    destruct Hfresh. apply (list_elem_of_fmap_2 fst) in Hin. exact Hin.
Qed.

Lemma files_of_nonempty acc k :
  Spec.files_of acc k <> [] -> (k, Spec.files_of acc k) ∈ acc.
Proof.
  induction acc as [|[k' fl'] rest IH]; cbn [Spec.files_of]; [congruence|].
  destruct (String.eqb_spec k' k) as [->|Hne]; intros Hfl; [left|].
  right. apply IH. exact Hfl.
Qed.

Lemma extract_session_id_ok f text st :
  fs st !! f = Some text ->
  extract_session_id f st = Done (Spec.recorded_key text) st.
Proof.
  intros Hf. unfold extract_session_id.
  rewrite (bind_done _ _ _ _ _ (read_text_ok _ _ _ Hf)). reflexivity.
Qed.

(** The grouping loop: it reads only, and the files it puts under a key are
    the listed files that record the key, in the order of the listing. *)
Lemma group_sessions_spec all_files acc st :
  (forall f, f ∈ all_files -> is_Some (fs st !! f)) ->
  exists r,
    group_sessions all_files acc st = Done r st
    /\ (forall sid, sid <> "" ->
          Spec.files_of r sid
          = Spec.files_of acc sid
            ++ filter (fun f => Spec.key_at (fs st) f = Some sid) all_files)
    /\ (NoDup (map fst acc) -> NoDup (map fst r))
    /\ ((forall k fl, (k, fl) ∈ acc -> k <> "" /\ fl <> []) ->
        forall k fl, (k, fl) ∈ r -> k <> "" /\ fl <> []).
Proof.
  revert acc; induction all_files as [|f rest IH]; intros acc Hread.
  - exists acc. split; [reflexivity|]. split; [|split; auto].
    intros sid _. rewrite app_nil_r. reflexivity.
  - destruct (Hread f) as [text Hf]; [left|].
    assert (Hrest : forall g, g ∈ rest -> is_Some (fs st !! g))
      by (intros g Hg; apply Hread; right; exact Hg).
    assert (Hkey : Spec.key_at (fs st) f = Spec.recorded_key text)
      by (unfold Spec.key_at; rewrite Hf; reflexivity).
    cbn [group_sessions].
    rewrite (bind_done _ _ _ _ _ (extract_session_id_ok _ _ _ Hf)).
    destruct (Spec.recorded_key text) as [[|c sid']|] eqn:Hrec.
    + destruct (IH acc Hrest) as (r & Hr & Hfiles & Hnd & Hne).
      exists r. split; [exact Hr|]. split; [|split; assumption].
      intros sid Hsid. rewrite (Hfiles sid Hsid), filter_cons, Hkey.
      rewrite decide_False by congruence. reflexivity.
    + destruct (IH (append_to acc (String c sid') f) Hrest)
        as (r & Hr & Hfiles & Hnd & Hne).
      exists r. split; [exact Hr|]. split; [|split].
      * intros sid Hsid. rewrite (Hfiles sid Hsid), files_of_append_to.
        rewrite filter_cons, Hkey, <- app_assoc.
        destruct (String.eqb_spec (String c sid') sid) as [->|Hdiff].
        -- rewrite decide_True by reflexivity. reflexivity.
        -- rewrite decide_False by congruence. reflexivity.
      * intros Hacc. apply Hnd. apply append_to_NoDup. exact Hacc.
      * intros Hacc. apply Hne. apply append_to_nonempty; [discriminate|exact Hacc].
    + destruct (IH acc Hrest) as (r & Hr & Hfiles & Hnd & Hne).
      exists r. split; [exact Hr|]. split; [|split; assumption].
      intros sid Hsid. rewrite (Hfiles sid Hsid), filter_cons, Hkey.
      rewrite decide_False by congruence. reflexivity.
Qed.

End Grouping.

(** ** Consolidation: all groups *)

Section AllGroups.
Import Migrate.

Lemma count_at_lookup fs1 fs2 f :
  fs1 !! f = fs2 !! f -> Spec.count_at fs1 f = Spec.count_at fs2 f.
Proof. intros Heq. unfold Spec.count_at. rewrite Heq. reflexivity. Qed.

Lemma legacy_device_nonempty f : Spec.legacy f -> Spec.device f <> "".
Proof. intros Hf. exact (proj2 (legacy_device f Hf)). Qed.

Lemma migrate_sessions_spec fs0 ss st :
  NoDup (map fst ss) ->
  Spec.groups_of fs0 st ss ->
  (forall sid fl, (sid, fl) ∈ ss -> (1 < length fl)%nat ->
     exists h, h ∈ fl /\ (0 < Spec.count_at fs0 h)%Z) ->
  exists st' pick,
    migrate_sessions ss st = Done () st'
    /\ (forall sid fl f, (sid, fl) ∈ ss -> f ∈ fl ->
          fs st' !! f = None /\ fs st' !! Spec.backup_path f = fs0 !! f)
    /\ (forall sid fl, (sid, fl) ∈ ss ->
          pick sid ∈ fl
          /\ (forall f, f ∈ fl ->
                (Spec.count_at fs0 f <= Spec.count_at fs0 (pick sid))%Z)
          /\ fs st' !! Spec.canonical sid (Spec.device (pick sid))
             = fs0 !! pick sid)
    /\ (forall p, fs st' !! p = fs st !! p \/ Spec.touched ss pick p).
Proof.
  revert st; induction ss as [|[sid fl] rest IH]; intros st Hnd Hgroups Hpos.
  - exists st, (fun _ => []). split; [reflexivity|].
    split; [intros ? ? ? Hin; inversion Hin|].
    split; [intros ? ? Hin; inversion Hin|]. intros p. left. reflexivity.
  - cbn [map fst] in Hnd. apply NoDup_cons in Hnd as [Hfresh Hnd].
    destruct (Hgroups sid fl) as (Hsid & Hfl & Hndfl & Hfiles); [left|].
    assert (Hother_key : forall k files f,
              (k, files) ∈ rest -> f ∈ files -> f ∈ fl -> False).
    { intros k files f Hk Hf Hf'.
      destruct (Hgroups k files) as (_ & _ & _ & Hfs); [right; exact Hk|].
      destruct (Hfs f Hf) as (_ & _ & _ & Hkey).
      destruct (Hfiles f Hf') as (_ & _ & _ & Hkey').
      rewrite Hkey in Hkey'. injection Hkey' as ->.
      apply Hfresh. apply (list_elem_of_fmap_2 fst) in Hk. exact Hk. }
    destruct (migrate_session_spec sid fl st Hfl Hndfl)
      as (best & st1 & Hrun1 & Hbest & Hmax & Hmoved1 & Hcanon1 & Hother1).
    { intros f Hf. destruct (Hfiles f Hf) as (Hleg & Hsome & Heq & _).
      split; [exact Hleg|]. rewrite Heq. exact Hsome. }
    { intros Hlen. destruct (Hpos sid fl) as (h & Hh & Hhpos); [left|exact Hlen|].
      exists h. split; [exact Hh|].
      rewrite (count_at_lookup _ fs0 h); [exact Hhpos|].
      apply (Hfiles h Hh). }
    assert (Hgroups1 : Spec.groups_of fs0 st1 rest).
    { intros k files Hk.
      destruct (Hgroups k files) as (Hk1 & Hk2 & Hk3 & Hfs); [right; exact Hk|].
      split; [exact Hk1|]. split; [exact Hk2|]. split; [exact Hk3|].
      intros f Hf. destruct (Hfs f Hf) as (Hleg & Hsome & Heq & Hkey).
      split; [exact Hleg|]. split; [exact Hsome|]. split; [|exact Hkey].
      destruct (Hother1 f) as [Hsame|[Hin|[(g & Hg & Hb)| Hc]]].
      - rewrite Hsame. exact Heq.
      - destruct (Hother_key k files f Hk Hf Hin).
      - symmetry in Hb. destruct (backup_not_legacy _ _ Hleg Hb).
      - destruct (legacy_not_canonical _ _ _ Hleg Hc). }
    destruct (IH st1 Hnd Hgroups1) as (st' & pick' & Hrun' & R1 & R2 & R3).
    { intros k files Hk Hlen.
      apply (Hpos k files); [right; exact Hk | exact Hlen]. }
    set (pick := fun k => if String.eqb k sid then best else pick' k).
    assert (Hpick_head : pick sid = best)
      by (unfold pick; rewrite String.eqb_refl; reflexivity).
    assert (Hpick_rest : forall k files, (k, files) ∈ rest -> pick k = pick' k).
    { intros k files Hk. unfold pick.
      destruct (String.eqb_spec k sid) as [->|_]; [|reflexivity].
      destruct Hfresh. apply (list_elem_of_fmap_2 fst) in Hk. exact Hk. }
    assert (Hbest_leg : Spec.legacy best) by (apply (Hfiles best Hbest)).
    assert (Huntouched : forall p,
              (forall k files, (k, files) ∈ rest ->
                 (p ∉ files)
                 /\ (forall g, g ∈ files -> p <> Spec.backup_path g)
                 /\ p <> Spec.canonical k (Spec.device (pick' k))) ->
              fs st' !! p = fs st1 !! p).
    { intros p Hp. destruct (R3 p) as [Hsame|(k & files & Hk & Hcase)];
        [exact Hsame|].
      destruct (Hp k files Hk) as (Hp1 & Hp2 & Hp3).
      destruct Hcase as [Hin|[(g & Hg & Hb)|Hc]];
        [destruct (Hp1 Hin) | destruct (Hp2 g Hg Hb) | destruct (Hp3 Hc)]. }
    exists st', pick. split.
    { rewrite migrate_sessions_cons, Hrun1. exact Hrun'. }
    split; [|split].
    + intros k files f Hk Hf. apply elem_of_cons in Hk as [Heq|Hk];
        [|exact (R1 k files f Hk Hf)].
      injection Heq as -> ->.
      destruct (Hfiles f Hf) as (Hleg & _ & Heq0 & _).
      destruct (Hmoved1 f Hf) as [Hgone Hback]. split.
      * rewrite Huntouched; [exact Hgone|].
        intros k files Hk. split; [|split].
        -- intros Hin. exact (Hother_key k files f Hk Hin Hf).
        -- intros g Hg Hb. symmetry in Hb.
           exact (backup_not_legacy _ _ Hleg Hb).
        -- apply legacy_not_canonical. exact Hleg.
      * rewrite Huntouched; [rewrite Hback; exact Heq0|].
        intros k files Hk.
        destruct (Hgroups1 k files Hk) as (_ & _ & _ & Hfs). split; [|split].
        -- intros Hin. apply (backup_not_legacy f (Spec.backup_path f));
             [apply (Hfs _ Hin) | reflexivity].
        -- intros g Hg Hb. apply backup_inj in Hb;
             [|exact Hleg|apply (Hfs g Hg)]. subst g.
           exact (Hother_key k files f Hk Hg Hf).
        -- apply backup_not_canonical.
    + intros k files Hk. apply elem_of_cons in Hk as [Heq|Hk].
      * injection Heq as -> ->. rewrite Hpick_head.
        split; [exact Hbest|]. split.
        -- intros f Hf.
           rewrite <- (count_at_lookup (fs st) fs0 f) by apply (Hfiles f Hf).
           rewrite <- (count_at_lookup (fs st) fs0 best)
             by apply (Hfiles best Hbest).
           apply Hmax. exact Hf.
        -- rewrite Huntouched.
           ++ rewrite Hcanon1. apply (Hfiles best Hbest).
           ++ intros k files Hk.
              destruct (Hgroups1 k files Hk) as (Hk1 & _ & _ & Hfs).
              split; [|split].
              ** intros Hin. apply (legacy_not_canonical _ sid (Spec.device best)
                                      (proj1 (Hfs _ Hin))). reflexivity.
              ** intros g Hg Hb. symmetry in Hb.
                 exact (backup_not_canonical _ _ _ Hb).
              ** intros Hc. apply canonical_inj in Hc;
                   [| exact Hsid | exact Hk1
                    | apply legacy_device_nonempty; exact Hbest_leg
                    | apply legacy_device_nonempty;
                      apply (Hfs _ (proj1 (R2 k files Hk)))].
                 subst k. apply Hfresh.
                 apply (list_elem_of_fmap_2 fst) in Hk. exact Hk.
      * rewrite (Hpick_rest k files Hk). exact (R2 k files Hk).
    + intros p. destruct (R3 p) as [Hsame|(k & files & Hk & Hcase)].
      * destruct (Hother1 p) as [Hsame1|Hcase1].
        -- left. rewrite Hsame. exact Hsame1.
        -- right. exists sid, fl. split; [left|]. rewrite Hpick_head.
           exact Hcase1.
      * right. exists k, files. split; [right; exact Hk|].
        rewrite (Hpick_rest k files Hk). exact Hcase.
Qed.


End AllGroups.


